(** * hackchain-client: a shallow embedding of [lib/client.js]

    The client is a thin callback-style HTTP front end for the hackchain
    service.  This development embeds the parts of [lib/client.js] that the
    specification speaks about:

    - the JavaScript values the client inspects (module [JS]);
    - the constructor [Client] and the request primitive with its
      completion guard (module [Http]);
    - the operations built on it: [get], [post], [getInfo],
      [getComplexity], [getNonce], [spendTX] (module [Api]);
    - the transaction builder [parseTX] (module [Builder]).

    The libraries the client calls into (Node's [url], [http], [JSON],
    [Buffer]; [bn.js]; [proof-of-work]; [hackchain-core]) are not part of the
    repository.  They enter as Section variables, so every general theorem
    holds for all of them; module [Reference] gives one executable instance
    on which concrete runs are evaluated. *)

From Stdlib Require Import ZArith List String Ascii Bool Lia.
From Stdlib Require Import Strings.Byte DecimalString.
Import ListNotations.

#[local] Set Warnings "-register-all".

Local Open Scope list_scope.
Local Open Scope Z_scope.
Local Open Scope string_scope.

(* ===================================================================== *)
(** ** JavaScript values, exceptions and the few runtime operations used *)
(* ===================================================================== *)

Module JS.

(** The values the client reads: what [JSON.parse] produces, plus
    [undefined] for an absent property.  Numbers are the integral ones
    (status codes, versions, indices, complexities); fractions, NaN and the
    infinities are outside the model.  An object is the ordered list of its
    own enumerable properties; lookup takes the first binding of a key. *)
Inductive value : Type :=
| VUndefined
| VNull
| VBool (b : bool)
| VNum (n : Z)
| VStr (s : string)
| VArr (elems : list value)
| VObj (props : list (string * value)).

(** Exceptions.  The message of an engine-raised [TypeError] differs between
    engine versions and is not recorded. *)
Inductive exn : Type :=
| Error (message : string)
| AssertionError (message : string)
| SyntaxError (message : string)
| TypeError.

(** A computation that either throws or returns. *)
Definition result (A : Type) : Type := (exn + A)%type.
Definition Throw {A : Type} (e : exn) : result A := inl e.
Definition Return {A : Type} (a : A) : result A := inr a.
Definition bind {A B : Type} (m : result A) (k : A -> result B) : result B :=
  match m with
  | inl e => inl e
  | inr a => k a
  end.

Declare Scope js_scope.
Delimit Scope js_scope with js.
Notation "x <- m ;; k" := (bind m (fun x => k))
  (at level 61, m at next level, right associativity) : js_scope.
Notation "m ;; k" := (bind m (fun _ => k))
  (at level 61, right associativity) : js_scope.

(** Decimal rendering of an integer, as [Number.prototype.toString] gives it
    for an integral number. *)
Definition dec (n : Z) : string := NilZero.string_of_int (Z.to_int n).

(** [ToBoolean]: the truthiness test of [if (x)], [x && y], [x || y]. *)
Definition ToBoolean (v : value) : bool :=
  match v with
  | VUndefined | VNull => false
  | VBool b => b
  | VNum n => negb (Z.eqb n 0)
  | VStr s => negb (String.eqb s "")
  | VArr _ | VObj _ => true
  end.

(** [typeof v]. *)
Definition typeof (v : value) : string :=
  match v with
  | VUndefined => "undefined"
  | VNull => "object"
  | VBool _ => "boolean"
  | VNum _ => "number"
  | VStr _ => "string"
  | VArr _ | VObj _ => "object"
  end.

(** [Array.isArray(v)]. *)
Definition isArray (v : value) : bool :=
  match v with
  | VArr _ => true
  | _ => false
  end.

(** [ToString], as string concatenation, template literals and
    [new Error(v)] apply it. *)
Fixpoint ToString (v : value) : string :=
  match v with
  | VUndefined => "undefined"
  | VNull => "null"
  | VBool true => "true"
  | VBool false => "false"
  | VNum n => dec n
  | VStr s => s
  | VArr l =>
      (fix join (l : list value) : string :=
         match l with
         | [] => ""
         | x :: rest =>
             let here := match x with
                         | VUndefined | VNull => ""
                         | _ => ToString x
                         end in
             match rest with
             | [] => here
             | _ :: _ => here ++ "," ++ join rest
             end
         end) l
  | VObj _ => "[object Object]"
  end.

(** First binding of [key] in a property list. *)
Fixpoint lookup (key : string) (props : list (string * value)) : option value :=
  match props with
  | [] => None
  | (k, v) :: rest => if String.eqb k key then Some v else lookup key rest
  end.

(** The position [i < n] whose decimal rendering is [key], if any: the
    array-index reading of a property key. *)
Fixpoint index_of_key (key : string) (n : nat) : option nat :=
  match n with
  | O => None
  | S i => if String.eqb (dec (Z.of_nat i)) key then Some i else index_of_key key i
  end.

(** Property read [v.key] / [v[key]] on own properties.  Reading a property
    of [undefined] or [null] throws.  Members inherited from the prototypes
    ([constructor], [toString], ...) are not modelled; the client reads none
    of them. *)
Definition Get (v : value) (key : string) : result value :=
  match v with
  | VUndefined | VNull => Throw TypeError
  | VBool _ | VNum _ => Return VUndefined
  | VStr s =>
      if String.eqb key "length" then Return (VNum (Z.of_nat (String.length s)))
      else match index_of_key key (String.length s) with
           | Some i => Return (VStr (String.substring i 1 s))
           | None => Return VUndefined
           end
  | VArr l =>
      if String.eqb key "length" then Return (VNum (Z.of_nat (List.length l)))
      else match index_of_key key (List.length l) with
           | Some i => Return (nth i l VUndefined)
           | None => Return VUndefined
           end
  | VObj props =>
      match lookup key props with
      | Some x => Return x
      | None => Return VUndefined
      end
  end.

(** Property write [o[key] = x] on a property list: an existing key keeps its
    place, a new key goes last. *)
Fixpoint assign (key : string) (x : value) (props : list (string * value))
  : list (string * value) :=
  match props with
  | [] => [(key, x)]
  | (k, v) :: rest =>
      if String.eqb k key then (k, x) :: rest else (k, v) :: assign key x rest
  end.

(** [v === s] for a string literal [s]. *)
Definition strict_eq_str (v : value) (s : string) : bool :=
  match v with
  | VStr t => String.eqb t s
  | _ => false
  end.

Section LooseEquality.

(** [StringToNumber] of the runtime, restricted to integral results:
    [None] when the string reads as NaN or as a non-integral number. *)
Variable StringToNumber : string -> option Z.

Definition opt_Z_eqb (o : option Z) (n : Z) : bool :=
  match o with
  | Some m => Z.eqb m n
  | None => false
  end.

(** [v == n] for a number [n] (abstract equality comparison): [undefined]
    and [null] equal no number, a boolean is compared as 0 or 1, a string
    through [StringToNumber], an object through its primitive (string)
    value. *)
Definition loose_eq_num (v : value) (n : Z) : bool :=
  match v with
  | VUndefined | VNull => false
  | VBool b => Z.eqb (if b then 1 else 0) n
  | VNum m => Z.eqb m n
  | VStr s => opt_Z_eqb (StringToNumber s) n
  | VArr _ | VObj _ => opt_Z_eqb (StringToNumber (ToString v)) n
  end.

End LooseEquality.

(** [assert(cond, message)]. *)
Definition assert (cond : bool) (message : string) : result unit :=
  if cond then Return tt else Throw (AssertionError message).

(** [buf.toString('hex')]: two lowercase hexadecimal digits per byte. *)
Definition hex_digit (n : N) : ascii :=
  match n with
  | 0%N => "0" | 1%N => "1" | 2%N => "2" | 3%N => "3"
  | 4%N => "4" | 5%N => "5" | 6%N => "6" | 7%N => "7"
  | 8%N => "8" | 9%N => "9" | 10%N => "a" | 11%N => "b"
  | 12%N => "c" | 13%N => "d" | 14%N => "e" | _ => "f"
  end%char.

Fixpoint toString_hex (bytes : list byte) : string :=
  match bytes with
  | [] => ""
  | b :: rest =>
      let n := Byte.to_N b in
      String (hex_digit (n / 16)) (String (hex_digit (n mod 16)) (toString_hex rest))
  end.

End JS.

Import JS.
Local Open Scope js_scope.

(* ===================================================================== *)
(** ** The constructor and the request primitive                         *)
(* ===================================================================== *)

(** The object [url.parse(uri)] returns (Node's legacy URL object).  A part
    the URI lacks is [null]. *)
Module Url.

Record t : Type := {
  protocol : option string;
  slashes : option bool;
  auth : option string;
  host : option string;
  port : option string;
  hostname : option string;
  hash : option string;
  search : option string;
  query : option string;
  pathname : option string;
  path : option string;
  href : string
}.

Definition str_or_null (o : option string) : value :=
  match o with
  | Some s => VStr s
  | None => VNull
  end.

Definition bool_or_null (o : option bool) : value :=
  match o with
  | Some b => VBool b
  | None => VNull
  end.

(** Property read [parsed.key].  The object has the twelve properties above
    and no other: any other key reads as [undefined]. *)
Definition get (u : t) (key : string) : value :=
  if String.eqb key "protocol" then str_or_null (protocol u)
  else if String.eqb key "slashes" then bool_or_null (slashes u)
  else if String.eqb key "auth" then str_or_null (auth u)
  else if String.eqb key "host" then str_or_null (host u)
  else if String.eqb key "port" then str_or_null (port u)
  else if String.eqb key "hostname" then str_or_null (hostname u)
  else if String.eqb key "hash" then str_or_null (hash u)
  else if String.eqb key "search" then str_or_null (search u)
  else if String.eqb key "query" then str_or_null (query u)
  else if String.eqb key "pathname" then str_or_null (pathname u)
  else if String.eqb key "path" then str_or_null (path u)
  else if String.eqb key "href" then VStr (href u)
  else VUndefined.

End Url.

Module Http.

(** The two transport modules, [require('http')] and [require('https')]. *)
Inductive transport : Type := http | https.

(** [new module.Agent({ port, host, servername })]. *)
Record Agent : Type := {
  agent_module : transport;
  agent_port : value;
  agent_host : value;
  agent_servername : value
}.

(** The instance [new Client(uri)] builds. *)
Record Client : Type := {
  host : value;
  module : transport;
  port : value;
  agent : Agent;
  prefix : string;
  version : value
}.

(** [c.hostname]: the constructor assigns [host], [module], [port], [agent],
    [prefix] and [version]; a read of [hostname] finds no such property. *)
Definition hostname (c : Client) : value := VUndefined.

(** What a callback is called with: [callback(err)] or
    [callback(null, data)]. *)
Inductive completion (A : Type) : Type :=
| Failed (err : exn)
| Delivered (data : A).
Arguments Failed {A} err.
Arguments Delivered {A} data.

(** A callback takes a completion; it returns what it did ([R]) or throws. *)
Definition callback_t (A R : Type) : Type := completion A -> result R.

(** The callback that only records what it was called with. *)
Definition record {A : Type} : callback_t A (completion A) := fun c => Return c.

(** The options object handed to [module.request]. *)
Record options : Type := {
  o_agent : Agent;
  o_host : value;
  o_hostname : value;
  o_port : value;
  o_method : string;
  o_path : string;
  o_headers : list (string * value)
}.

(** [util._extend(target, source)] on property lists: every own property
    of [source] is assigned on [target], last key first. *)
Definition _extend (target source : list (string * value)) : list (string * value) :=
  fold_left (fun acc kv => assign (fst kv) (snd kv) acc) (rev source) target.

(** The request object: where it goes, what completes it, and what
    [req.end(...)] wrote. *)
Record ClientRequest (R : Type) : Type := {
  req_module : transport;
  req_options : options;
  req_callback : callback_t value R;
  req_ended : bool;
  req_body : option string
}.
Arguments req_module {R} _.
Arguments req_options {R} _.
Arguments req_callback {R} _.
Arguments req_ended {R} _.
Arguments req_body {R} _.

(** [req.end()] and [req.end(body)]. *)
Definition end_ {R : Type} (req : ClientRequest R) (body : option string) : ClientRequest R :=
  {| req_module := req_module req;
     req_options := req_options req;
     req_callback := req_callback req;
     req_ended := true;
     req_body := body |}.

(** What the transport does to a request, in order of arrival. *)
Inductive event : Type :=
| EvResponse (statusCode : Z)   (* the response callback is called with [res] *)
| EvData (chunk : string)       (* [res] emits 'data' *)
| EvEnd                         (* [res] emits 'end' *)
| EvError (e : exn).            (* [req] emits 'error' *)

(** The response being read. *)
Record response : Type := {
  statusCode : Z;
  chunks : string;
  end_listener : bool           (* [res.once('end', ...)] still registered *)
}.

(** The state one call of [request] closes over, with the record of what the
    callback did and of the exceptions no handler caught. *)
Record state (R : Type) : Type := {
  once : bool;
  error_listener : bool;        (* [req.once('error', done)] still registered *)
  res : option response;
  calls : list R;
  uncaught : list exn
}.
Arguments once {R} _.
Arguments error_listener {R} _.
Arguments res {R} _.
Arguments calls {R} _.
Arguments uncaught {R} _.

Section Constructor.

(** [url.parse] and [hackchain.version]. *)
Variable url_parse : string -> Url.t.
Variable hackchain_version : value.

Definition new_Client (uri : string) : Client :=
  let parsed := url_parse uri in
  let host := Url.get parsed "hostname" in
  let module := if strict_eq_str (Url.get parsed "scheme") "http:" then http else https in
  let port :=
    if ToBoolean (Url.get parsed "port") then Url.get parsed "port"
    else VNum (if strict_eq_str (Url.get parsed "scheme") "http:" then 80 else 443) in
  {| host := host;
     module := module;
     port := port;
     agent := {| agent_module := module;
                 agent_port := port;
                 agent_host := host;
                 agent_servername := Url.get parsed "host" |};
     prefix := "/v1";
     version := hackchain_version |}.

End Constructor.

Section Request.

(** [JSON.parse]. *)
Variable JSON_parse : string -> result value.

Context {R : Type}.

Definition request (c : Client) (method : string) (headers : list (string * value))
           (path : string) (callback : callback_t value R) : ClientRequest R :=
  {| req_module := module c;
     req_options :=
       {| o_agent := agent c;
          o_host := hostname c;
          o_hostname := hostname c;
          o_port := port c;
          o_method := method;
          o_path := prefix c ++ path;
          o_headers :=
            _extend [("User-Agent", VStr ("hackchain/client_v" ++ ToString (version c)));
                     ("Content-Type", VStr "application/json")]
                    headers |};
     req_callback := callback;
     req_ended := false;
     req_body := None |}.

Definition initial : state R :=
  {| once := false; error_listener := true; res := None; calls := []; uncaught := [] |}.

Variable callback : callback_t value R.

(** [callback(err, data)]: the call is recorded, or it throws and nothing
    up the stack catches it. *)
Definition call_callback (st : state R) (c : completion value) : state R :=
  match callback c with
  | inr r =>
      {| once := once st; error_listener := error_listener st; res := res st;
         calls := (calls st ++ [r])%list; uncaught := uncaught st |}
  | inl e =>
      {| once := once st; error_listener := error_listener st; res := res st;
         calls := calls st; uncaught := (uncaught st ++ [e])%list |}
  end.

(** [done(err, data)]. *)
Definition done (st : state R) (c : completion value) : state R :=
  if once st then st
  else call_callback
         {| once := true; error_listener := error_listener st; res := res st;
            calls := calls st; uncaught := uncaught st |} c.

Definition throw_uncaught (st : state R) (e : exn) : state R :=
  {| once := once st; error_listener := error_listener st; res := res st;
     calls := calls st; uncaught := (uncaught st ++ [e])%list |}.

(** The listener of [res.once('end', ...)]. *)
Definition on_end (st : state R) (statusCode : Z) (chunks : string) : state R :=
  match JSON_parse chunks with
  | inl e => done st (Failed e)
  | inr data =>
      match Get data "error" with
      | inl e => throw_uncaught st e
      | inr error =>
          if ToBoolean error then done st (Failed (Error (ToString error)))
          else if (statusCode <? 200)%Z || (statusCode >=? 400)%Z
               then call_callback st (Failed (Error ("Client: statusCode " ++ dec statusCode)))
               else done st (Delivered data)
      end
  end.

Definition set_res (st : state R) (r : option response) : state R :=
  {| once := once st; error_listener := error_listener st; res := r;
     calls := calls st; uncaught := uncaught st |}.

(** One event.  The transport calls the response callback at most once per
    request; an 'error' with no listener left is thrown by the emitter. *)
Definition step (st : state R) (ev : event) : state R :=
  match ev with
  | EvResponse status =>
      match res st with
      | None => set_res st (Some {| statusCode := status; chunks := ""; end_listener := true |})
      | Some _ => st
      end
  | EvData chunk =>
      match res st with
      | Some r => set_res st (Some {| statusCode := statusCode r;
                                      chunks := chunks r ++ chunk;
                                      end_listener := end_listener r |})
      | None => st
      end
  | EvEnd =>
      match res st with
      | Some r =>
          if end_listener r
          then on_end (set_res st (Some {| statusCode := statusCode r;
                                           chunks := chunks r;
                                           end_listener := false |}))
                      (statusCode r) (chunks r)
          else st
      | None => st
      end
  | EvError e =>
      if error_listener st
      then done {| once := once st; error_listener := false; res := res st;
                   calls := calls st; uncaught := uncaught st |} (Failed e)
      else throw_uncaught st e
  end.

Definition run_from (st : state R) (events : list event) : state R :=
  fold_left step events st.

End Request.

(** The events of one request, fed to the callback the request was made
    with. *)
Definition run (JSON_parse : string -> result value) {R : Type}
           (req : ClientRequest R) (events : list event) : state R :=
  run_from JSON_parse (req_callback req) initial events.

(** The text a list of chunks adds up to. *)
Definition body_text (body : list string) : string :=
  fold_right String.append "" body.

(** A response that arrives whole: status line, body in chunks, end. *)
Definition respond (statusCode : Z) (body : list string) : list event :=
  (EvResponse statusCode :: map EvData body ++ [EvEnd])%list.

(** The results of the calls that returned. *)
Fixpoint successes {A : Type} (l : list (result A)) : list A :=
  match l with
  | [] => []
  | inl _ :: rest => successes rest
  | inr a :: rest => a :: successes rest
  end.

(** What the request primitive completes with on a sequence of events: the
    arguments a recording callback is called with, in order. *)
Definition completions (JSON_parse : string -> result value) (events : list event)
  : list (completion value) :=
  calls (run_from JSON_parse record initial events).

(** A state of the request under [callback] and one under [record] that have
    seen the same events. *)
Definition same_events {R : Type} (callback : callback_t value R)
           (st : state R) (st' : state (completion value)) : Prop :=
  once st = once st' /\
  error_listener st = error_listener st' /\
  res st = res st' /\
  calls st = successes (map callback (calls st')).

(** The run of a request whose callback only records its argument. *)
Definition observed (JSON_parse : string -> result value) (c : Client)
           (method path : string) (headers : list (string * value))
           (events : list event) : state (completion value) :=
  run JSON_parse (request c method headers path record) events.

(** An event whose response status, if it carries one, is in [200, 400). *)
Definition status_in_range (ev : event) : Prop :=
  match ev with
  | EvResponse status => 200 <= status < 400
  | _ => True
  end.

(** The completion guard as an invariant: no call before [once] is set, at
    most one after, and the response being read has a status in range. *)
Definition guarded {R : Type} (st : state R) : Prop :=
  (List.length (calls st) <= if once st then 1 else 0)%nat /\
  (forall r, res st = Some r -> 200 <= statusCode r < 400).

End Http.

Import Http.

(* ===================================================================== *)
(** ** The operations built on [request]                                 *)
(* ===================================================================== *)

Module Api.

Section Api.

(** [JSON.stringify]. *)
Variable JSON_stringify : value -> string.

Context {R : Type}.

Definition get (c : Client) (path : string) (callback : callback_t value R)
  : ClientRequest R :=
  end_ (request c "GET" [] path callback) None.

Definition post (c : Client) (path : string) (headers : list (string * value))
           (body : value) (callback : callback_t value R) : ClientRequest R :=
  end_ (request c "POST" headers path callback) (Some (JSON_stringify body)).

Section Entities.

(** [Buffer.from(x, encoding)] and the decoder [cons.parse] of an entity
    class, reading the bytes pushed on a fresh [OBuf]. *)
Variable Buffer_from : value -> string -> result (list byte).
Context {E : Type}.
Variable cons_parse : list byte -> result E.

Definition parseEntity (hex : value) (callback : callback_t E R) : result R :=
  raw <- Buffer_from hex "hex";;
  match cons_parse raw with
  | inl e => callback (Failed e)
  | inr entity => callback (Delivered entity)
  end.

(** [getBlock] with [field = "block"] and [cons = hackchain.Block];
    [getTX] with [field = "tx"] and [cons = TX]. *)
Definition getEntity (resource field : string) (c : Client) (hash : string)
           (callback : callback_t E R) : ClientRequest R :=
  get c (resource ++ hash)
      (fun r => match r with
                | Failed err => callback (Failed err)
                | Delivered data =>
                    hex <- Get data field;;
                    parseEntity hex callback
                end).

Definition getBlock := getEntity "/block/" "block".
Definition getTX := getEntity "/tx/" "tx".

End Entities.

Section Spend.

(** A transaction of [hackchain-core]: [tx.render(buf)] followed by
    [Buffer.concat(buf.render())], and [tx.hash()]. *)
Context {TX : Type}.
Variable TX_render : TX -> list byte.
Variable TX_hash : TX -> list byte.

Definition spendTX (c : Client) (tx : TX) (nonce : value)
           (callback : callback_t TX R) : ClientRequest R :=
  let data := VObj [("tx", VStr (toString_hex (TX_render tx)))] in
  let headers := [("X-Proof-Of-Work", nonce)] in
  post c ("/tx/" ++ toString_hex (TX_hash tx)) headers data
       (fun r => match r with
                 | Failed err => callback (Failed err)
                 | Delivered _ => callback (Delivered tx)
                 end).

End Spend.

Definition getInfo (c : Client) (callback : callback_t value R) : ClientRequest R :=
  get c "/" callback.

Definition getLeaderboard (c : Client) (limit : value) (callback : callback_t value R)
  : ClientRequest R :=
  get c ("/leaderboard?limit=" ++ ToString limit) callback.

Definition getComplexity (c : Client) (callback : callback_t value R)
  : ClientRequest R :=
  getInfo c
    (fun r => match r with
              | Failed err => callback (Failed err)
              | Delivered info =>
                  complexity <- Get info "proof-of-work-complexity";;
                  callback (Delivered (if ToBoolean complexity then complexity else VNum 0))
              end).

Section Nonce.

(** [new pow.Solver().solve(complexity)]: the nonce, a buffer. *)
Variable solve : value -> result (list byte).

Definition getNonce (c : Client) (callback : callback_t string R)
  : ClientRequest R :=
  getComplexity c
    (fun r => match r with
              | Failed err => callback (Failed err)
              | Delivered complexity =>
                  nonce <- solve complexity;;
                  callback (Delivered (ToString complexity ++ ":" ++ toString_hex nonce))
              end).

End Nonce.

End Api.

End Api.

(* ===================================================================== *)
(** ** The transaction builder                                           *)
(* ===================================================================== *)

Module Builder.

(** The elements a [for (i = 0; i < a.length; i++)] loop visits. *)
Definition elements (a : value) : list value :=
  match a with
  | VArr l => l
  | _ => []
  end.

(** A loop whose body updates the transaction or throws. *)
Fixpoint each {A : Type} (body : A -> value -> result A) (acc : A) (l : list value)
  : result A :=
  match l with
  | [] => Return acc
  | x :: rest => acc' <- body acc x;; each body acc' rest
  end.

Section Builder.

(** What [hackchain-core], [bn.js] and the runtime provide: the transaction
    class with its version constant and its [input] and [output] methods
    (which update the transaction), the script compiler, [Buffer.from],
    the big-number constructor [new BN(x, base)] and [StringToNumber]. *)
Context {TX Script BNum : Type}.
Variable TX_version : Z.
Variable new_TX : TX.
Variable TX_input : TX -> list byte -> value -> Script -> result TX.
Variable TX_output : TX -> BNum -> Script -> result TX.
Variable compileTextArray : value -> result Script.
Variable Buffer_from : value -> string -> result (list byte).
Variable BN : value -> Z -> result BNum.
Variable StringToNumber : string -> option Z.

(** The body of the loop over [data.inputs]. *)
Definition parse_input (tx : TX) (input : value) : result TX :=
  assert (ToBoolean input && String.eqb (typeof input) "object")
         "Client: `tx.inputs[]` must contain Objects";;
  input_hash <- Get input "hash";;
  assert (String.eqb (typeof input_hash) "string")
         "Client: `tx.inputs[].hash` must be a hex string";;
  input_index <- Get input "index";;
  assert (String.eqb (typeof input_index) "number")
         "Client: `tx.inputs[].number` must be a number";;
  input_script <- Get input "script";;
  assert (isArray input_script)
         "Client: `tx.inputs[].script` must be an Array";;
  hash <- Buffer_from input_hash "hex";;
  let index := input_index in
  script <- compileTextArray input_script;;
  TX_input tx hash index script.

(** The body of the loop over [data.outputs]. *)
Definition parse_output (tx : TX) (output : value) : result TX :=
  assert (ToBoolean output && String.eqb (typeof output) "object")
         "Client: `tx.outputs[]` must contain Objects";;
  output_value <- Get output "value";;
  assert (String.eqb (typeof output_value) "string")
         "Client: `tx.output[].value` must be a decimal string";;
  output_script <- Get output "script";;
  assert (isArray output_script)
         "Client: `tx.outputs[].script` must be an Array";;
  value <- BN output_value 10;;
  script <- compileTextArray output_script;;
  TX_output tx value script.

(** [parseTX(data, callback)]: it throws, or calls [callback(null, tx)]. *)
Definition parseTX {R : Type} (data : value) (callback : callback_t TX R) : result R :=
  data_version <- Get data "version";;
  assert (loose_eq_num StringToNumber data_version TX_version)
         ("Client: version must be " ++ dec TX_version);;
  data_inputs <- Get data "inputs";;
  assert (isArray data_inputs) "Client: `tx.inputs` must be an Array";;
  data_outputs <- Get data "outputs";;
  assert (isArray data_outputs) "Client: `tx.inputs` must be an Array";;
  let tx := new_TX in
  tx <- each parse_input tx (elements data_inputs);;
  tx <- each parse_output tx (elements data_outputs);;
  callback (Delivered tx).

(** The structured input [{version: TX.version, inputs: [...], outputs: [...]}]. *)
Definition envelope (ins outs : list value) : value :=
  VObj [("version", VNum TX_version); ("inputs", VArr ins); ("outputs", VArr outs)].

End Builder.

(** The value a property read yields where it does not throw. *)
Definition field (v : value) (key : string) : value :=
  match Get v key with
  | inr x => x
  | inl _ => VUndefined
  end.

(** The four tests of the loop over [data.inputs], taken together. *)
Definition input_ok (input : value) : bool :=
  ToBoolean input && String.eqb (typeof input) "object"
  && String.eqb (typeof (field input "hash")) "string"
  && String.eqb (typeof (field input "index")) "number"
  && isArray (field input "script").

(** The three tests of the loop over [data.outputs], taken together. *)
Definition output_ok (output : value) : bool :=
  ToBoolean output && String.eqb (typeof output) "object"
  && String.eqb (typeof (field output "value")) "string"
  && isArray (field output "script").

End Builder.

(* ===================================================================== *)
(** ** An executable instance of the collaborators                       *)
(* ===================================================================== *)

(** The general theorems below hold for every collaborator.  This module
    fixes one instance of each so that the client can be run on concrete
    inputs.  The runtime pieces cover a fragment of what the real ones
    accept (integers, strings without escapes other than the quote and the
    backslash); the runs below stay inside it. *)
Module Reference.

Definition quote : ascii := ascii_of_nat 34.
Definition backslash : ascii := ascii_of_nat 92.

Definition is_ws (c : ascii) : bool :=
  match nat_of_ascii c with
  | 9%nat | 10%nat | 13%nat | 32%nat => true
  | _ => false
  end.

Definition is_digit (c : ascii) : bool :=
  (48 <=? nat_of_ascii c)%nat && (nat_of_ascii c <=? 57)%nat.

Definition digit (c : ascii) : Z := Z.of_nat (nat_of_ascii c) - 48.

Fixpoint skip_ws (s : string) : string :=
  match s with
  | String c rest => if is_ws c then skip_ws rest else s
  | EmptyString => s
  end.

(** The digits at the head of [s], read in base ten onto [acc]. *)
Fixpoint read_digits (acc : Z) (s : string) : Z * string :=
  match s with
  | String c rest => if is_digit c then read_digits (10 * acc + digit c) rest else (acc, s)
  | EmptyString => (acc, s)
  end.

Fixpoint all_digits (s : string) : bool :=
  match s with
  | String c rest => is_digit c && all_digits rest
  | EmptyString => true
  end.

(** [StringToNumber] on strings of decimal digits (the empty string reads
    as 0); every other string is answered [None]. *)
Definition StringToNumber (s : string) : option Z :=
  if all_digits s then Some (fst (read_digits 0 s)) else None.

(** *** [JSON.parse] on the fragment: [null], [true], [false], integers,
    strings, arrays, objects. *)

Fixpoint expect (word s : string) : option string :=
  match word, s with
  | EmptyString, _ => Some s
  | String a word', String b s' => if Ascii.eqb a b then expect word' s' else None
  | String _ _, EmptyString => None
  end.

(** The characters up to the closing quote. *)
Fixpoint read_string (s : string) : option (string * string) :=
  match s with
  | EmptyString => None
  | String c rest =>
      if Ascii.eqb c quote then Some (EmptyString, rest)
      else if Ascii.eqb c backslash then
        match rest with
        | String d rest' =>
            if Ascii.eqb d quote || Ascii.eqb d backslash then
              match read_string rest' with
              | Some (body, tail) => Some (String d body, tail)
              | None => None
              end
            else None
        | EmptyString => None
        end
      else if (nat_of_ascii c <? 32)%nat then None
      else match read_string rest with
           | Some (body, tail) => Some (String c body, tail)
           | None => None
           end
  end.

Definition read_number (s : string) : option (value * string) :=
  let (negative, body) :=
    match s with
    | String "-" rest => (true, rest)
    | _ => (false, s)
    end in
  match body with
  | String c rest =>
      if is_digit c then
        let (n, tail) := read_digits 0 body in
        let leading_zero :=
          Ascii.eqb c "0" && match rest with
                             | String d _ => is_digit d
                             | EmptyString => false
                             end in
        let fraction :=
          match tail with
          | String d _ => Ascii.eqb d "." || Ascii.eqb d "e" || Ascii.eqb d "E"
          | EmptyString => false
          end in
        if leading_zero || fraction then None
        else Some (VNum (if negative then - n else n), tail)
      else None
  | EmptyString => None
  end.

Fixpoint parse_elements (parse_value : string -> option (value * string))
         (fuel : nat) (s : string) : option (list value * string) :=
  match fuel with
  | O => None
  | S fuel' =>
      match parse_value s with
      | None => None
      | Some (v, rest) =>
          match skip_ws rest with
          | String "," rest' =>
              match parse_elements parse_value fuel' rest' with
              | Some (vs, tail) => Some (v :: vs, tail)
              | None => None
              end
          | String "]" tail => Some ([v], tail)
          | _ => None
          end
      end
  end.

Fixpoint parse_members (parse_value : string -> option (value * string))
         (fuel : nat) (acc : list (string * value)) (s : string)
  : option (list (string * value) * string) :=
  match fuel with
  | O => None
  | S fuel' =>
      match skip_ws s with
      | String c rest =>
          if Ascii.eqb c quote then
            match read_string rest with
            | Some (key, rest1) =>
                match skip_ws rest1 with
                | String ":" rest2 =>
                    match parse_value rest2 with
                    | Some (v, rest3) =>
                        match skip_ws rest3 with
                        | String "," rest4 =>
                            parse_members parse_value fuel' (assign key v acc) rest4
                        | String "}" tail => Some (assign key v acc, tail)
                        | _ => None
                        end
                    | None => None
                    end
                | _ => None
                end
            | None => None
            end
          else None
      | EmptyString => None
      end
  end.

Fixpoint parse_value (fuel : nat) (s : string) : option (value * string) :=
  match fuel with
  | O => None
  | S fuel' =>
      match skip_ws s with
      | EmptyString => None
      | String c rest =>
          if Ascii.eqb c "n" then option_map (pair VNull) (expect "ull" rest)
          else if Ascii.eqb c "t" then option_map (pair (VBool true)) (expect "rue" rest)
          else if Ascii.eqb c "f" then option_map (pair (VBool false)) (expect "alse" rest)
          else if Ascii.eqb c quote then
            match read_string rest with
            | Some (body, tail) => Some (VStr body, tail)
            | None => None
            end
          else if Ascii.eqb c "[" then
            match skip_ws rest with
            | String "]" tail => Some (VArr [], tail)
            | _ =>
                match parse_elements (parse_value fuel') fuel' rest with
                | Some (vs, tail) => Some (VArr vs, tail)
                | None => None
                end
            end
          else if Ascii.eqb c "{" then
            match skip_ws rest with
            | String "}" tail => Some (VObj [], tail)
            | _ =>
                match parse_members (parse_value fuel') fuel' [] rest with
                | Some (props, tail) => Some (VObj props, tail)
                | None => None
                end
            end
          else read_number (String c rest)
      end
  end.

Definition JSON_parse (text : string) : result value :=
  match parse_value (S (String.length text)) text with
  | Some (v, rest) =>
      match skip_ws rest with
      | EmptyString => Return v
      | String _ _ => Throw (SyntaxError "Unexpected token in JSON")
      end
  | None => Throw (SyntaxError "Unexpected token in JSON")
  end.

(** *** [JSON.stringify] on the same fragment. *)

Fixpoint escape (s : string) : string :=
  match s with
  | EmptyString => EmptyString
  | String c rest =>
      if Ascii.eqb c quote || Ascii.eqb c backslash
      then String backslash (String c (escape rest))
      else String c (escape rest)
  end.

Definition quoted (s : string) : string :=
  String quote (escape s ++ String quote EmptyString).

Fixpoint JSON_stringify (v : value) : string :=
  match v with
  | VUndefined => "undefined"
  | VNull => "null"
  | VBool true => "true"
  | VBool false => "false"
  | VNum n => dec n
  | VStr s => quoted s
  | VArr l =>
      "[" ++
      (fix items (l : list value) : string :=
         match l with
         | [] => ""
         | x :: rest =>
             let here := match x with
                         | VUndefined => "null"
                         | _ => JSON_stringify x
                         end in
             match rest with
             | [] => here
             | _ :: _ => here ++ "," ++ items rest
             end
         end) l ++ "]"
  | VObj props =>
      "{" ++
      (fix members (first : bool) (props : list (string * value)) : string :=
         match props with
         | [] => ""
         | (k, x) :: rest =>
             match x with
             | VUndefined => members first rest
             | _ => (if first then "" else ",") ++ quoted k ++ ":" ++ JSON_stringify x
                    ++ members false rest
             end
         end) true props ++ "}"
  end.

(** *** [Buffer.from(string, 'hex')]: pairs of hexadecimal digits are decoded
    up to the first pair that is not one.  The instance refuses arguments
    that are not strings. *)

Definition hex_value (c : ascii) : option N :=
  let n := N_of_ascii c in
  if (48 <=? n)%N && (n <=? 57)%N then Some (n - 48)%N
  else if (97 <=? n)%N && (n <=? 102)%N then Some (n - 87)%N
  else if (65 <=? n)%N && (n <=? 70)%N then Some (n - 55)%N
  else None.

Fixpoint from_hex (s : string) : list byte :=
  match s with
  | String a (String b rest) =>
      match hex_value a, hex_value b with
      | Some h, Some l =>
          match Byte.of_N (16 * h + l) with
          | Some x => x :: from_hex rest
          | None => []
          end
      | _, _ => []
      end
  | _ => []
  end.

Definition Buffer_from (x : value) (encoding : string) : result (list byte) :=
  match x with
  | VStr s => if String.eqb encoding "hex" then Return (from_hex s) else Throw TypeError
  | _ => Throw TypeError
  end.

(** *** [hackchain-core] and [bn.js] *)

(** Modelled from the spec: the script compiler of [hackchain-core]
    ([TX.Script.compileTextArray]), which is not under src/.  A script is
    compiled from a sequence of text tokens, one instruction per token, in
    order; a token that is not text is a compile error. *)
Definition Script : Type := list string.

Fixpoint compile_tokens (tokens : list value) : result Script :=
  match tokens with
  | [] => Return []
  | VStr t :: rest => script <- compile_tokens rest;; Return (t :: script)
  | _ :: _ => Throw (Error "Script: unknown token")
  end.

Definition compileTextArray (x : value) : result Script :=
  match x with
  | VArr tokens => compile_tokens tokens
  | _ => Throw (Error "Script: not an array")
  end.

(** Modelled from the spec: the decimal strings an output's value may be
    (bn.js, which reads them, is not under src/): the valid non-negative
    base-10 integer strings, that is, the non-empty strings of decimal
    digits. *)
Definition valid_decimal (s : string) : bool :=
  negb (String.eqb s "") && all_digits s.

(** Modelled from the spec: the big-integer constructor [new BN(x, 10)] of
    [bn.js], which is not under src/.  An output's value is a
    decimal-string-encoded arbitrary-precision non-negative integer, and a
    value that is not a valid non-negative base-10 integer string is
    rejected with a validation error. *)
Definition BN (x : value) (base : Z) : result Z :=
  match x with
  | VStr s =>
      if Z.eqb base 10 && valid_decimal s
      then Return (fst (read_digits 0 s))
      else Throw (AssertionError "BN: not a non-negative decimal string")
  | _ => Throw (AssertionError "BN: not a non-negative decimal string")
  end.

(** Modelled from the spec: the transaction class [TX] of [hackchain-core],
    which is not under src/.  A transaction has a format version and two
    ordered sequences, of inputs (hash of a prior transaction, output index,
    unlocking script) and of outputs (value, locking script). *)
Record Input : Type := {
  in_hash : list byte;
  in_index : value;
  in_script : Script
}.

Record Output : Type := {
  out_value : Z;
  out_script : Script
}.

Record TX : Type := {
  inputs : list Input;
  outputs : list Output
}.

Definition TX_version : Z := 1.

Definition new_TX : TX := {| inputs := []; outputs := [] |}.

(** Modelled from the spec: the length of the identifier (content hash) of a
    transaction in [hackchain-core], which is not under src/.  The spec fixes
    that the length is fixed, not its number; the instance takes the 32 bytes
    of a SHA-256 digest. *)
Definition hash_length : nat := 32.

(** Modelled from the spec: an output index is a non-negative integer. *)
Definition index_ok (index : value) : bool :=
  match index with
  | VNum n => (0 <=? n)%Z
  | _ => false
  end.

(** Modelled from the spec: [tx.input(hash, index, script)] of
    [hackchain-core], which is not under src/.  An input references a prior
    transaction by a hash of the identifier length and selects one of its
    outputs by a non-negative integer; an input that does is appended, any
    other is refused with a validation error. *)
Definition TX_input (tx : TX) (hash : list byte) (index : value) (script : Script)
  : result TX :=
  if negb (Nat.eqb (List.length hash) hash_length)
  then Throw (AssertionError "Input: hash must have the identifier length")
  else if negb (index_ok index)
  then Throw (AssertionError "Input: index must be a non-negative integer")
  else Return {| inputs := (inputs tx ++ [{| in_hash := hash; in_index := index;
                                             in_script := script |}])%list;
                 outputs := outputs tx |}.

(** Modelled from the spec: [tx.output(value, script)] of [hackchain-core],
    which is not under src/.  An output carries a non-negative value; an
    output that does is appended, a negative value is refused with a
    validation error. *)
Definition TX_output (tx : TX) (value : Z) (script : Script) : result TX :=
  if (value <? 0)%Z
  then Throw (AssertionError "Output: value must be non-negative")
  else Return {| inputs := inputs tx;
                 outputs := (outputs tx ++ [{| out_value := value;
                                               out_script := script |}])%list |}.

(** Modelled from the spec: what an output's [value] must be, a string that
    is a valid non-negative base-10 integer. *)
Definition decimal_value (v : value) : bool :=
  match v with
  | VStr s => valid_decimal s
  | _ => false
  end.

(** The hex of a hash of the identifier length, and its bytes. *)
Definition hash_hex : string :=
  "00ff00ff00ff00ff00ff00ff00ff00ff00ff00ff00ff00ff00ff00ff00ff00ff".

Definition hash_bytes : list byte := Eval cbv in from_hex hash_hex.

(** Modelled from the spec: rendering and hashing of [hackchain-core], which
    are not under src/.  Only determinism matters to the client; the instance
    renders the version and the two counts, and hashes to one byte. *)
Definition count_byte (n : nat) : byte :=
  match Byte.of_N (N.of_nat n mod 256) with
  | Some b => b
  | None => x00
  end.

Definition TX_render (tx : TX) : list byte :=
  [x01; count_byte (List.length (inputs tx)); count_byte (List.length (outputs tx))]%byte.

Definition TX_hash (tx : TX) : list byte :=
  [count_byte (List.length (inputs tx) + 16 * List.length (outputs tx))].

(** Modelled from the spec: the solver of [proof-of-work], which is not
    under src/: a blocking call from a complexity to a nonce.  The instance
    is deterministic and answers every complexity with the same nonce. *)
Definition solve (complexity : value) : result (list byte) :=
  Return [x00; x2a]%byte.

(** [url.parse] on the two URIs used below, ['http://localhost:8080/'] and
    ['http://api.test/']. *)
Definition url_with_port : Url.t :=
  {| Url.protocol := Some "http:"; Url.slashes := Some true; Url.auth := None;
     Url.host := Some "localhost:8080"; Url.port := Some "8080";
     Url.hostname := Some "localhost"; Url.hash := None; Url.search := None;
     Url.query := None; Url.pathname := Some "/"; Url.path := Some "/";
     Url.href := "http://localhost:8080/" |}.

Definition url_without_port : Url.t :=
  {| Url.protocol := Some "http:"; Url.slashes := Some true; Url.auth := None;
     Url.host := Some "api.test"; Url.port := None;
     Url.hostname := Some "api.test"; Url.hash := None; Url.search := None;
     Url.query := None; Url.pathname := Some "/"; Url.path := Some "/";
     Url.href := "http://api.test/" |}.

Definition url_parse (uri : string) : Url.t :=
  if String.eqb uri "http://localhost:8080/" then url_with_port else url_without_port.

Definition client : Client := new_Client url_parse (VStr "1.0.0") "http://api.test/".

(** [parseTX] on these collaborators, with a callback that records the
    transaction it is given. *)
Definition parseTX (data : value) : result (completion TX) :=
  Builder.parseTX TX_version new_TX TX_input TX_output compileTextArray Buffer_from BN
                  StringToNumber data record.

(** [{version: 1, inputs: ins, outputs: outs}]. *)
Definition envelope (ins outs : list value) : value := Builder.envelope TX_version ins outs.

End Reference.

(* ===================================================================== *)
(** * Properties                                                         *)
(* ===================================================================== *)

(** ** The runtime model on samples *)

Example dec_samples : dec 443 = "443" /\ dec 0 = "0" /\ dec (-7) = "-7".
Proof. repeat split; reflexivity. Qed.

Example ToString_array :
  ToString (VArr [VNum 1; VNull; VStr "a"; VArr [VBool true; VNum 2]]) = "1,,a,true,2".
Proof. reflexivity. Qed.

Example Get_samples :
  Get (VArr [VStr "x"; VStr "y"]) "1" = Return (VStr "y") /\
  Get (VArr [VStr "x"; VStr "y"]) "length" = Return (VNum 2) /\
  Get (VObj [("a", VNum 1)]) "b" = Return VUndefined /\
  Get VNull "a" = Throw TypeError.
Proof. repeat split; reflexivity. Qed.

Example toString_hex_sample : toString_hex [x00; x0f; xa5; xff]%byte = "000fa5ff".
Proof. reflexivity. Qed.

Example typeof_samples :
  typeof VNull = "object" /\ typeof (VArr []) = "object" /\ typeof (VNum (-1)) = "number".
Proof. repeat split; reflexivity. Qed.

Example JSON_parse_samples :
  Reference.JSON_parse "{}" = Return (VObj []) /\
  Reference.JSON_parse "[1, -2, null, true]" =
    Return (VArr [VNum 1; VNum (-2); VNull; VBool true]) /\
  Reference.JSON_parse "null" = Return VNull /\
  Reference.JSON_parse "[1,]" = Throw (SyntaxError "Unexpected token in JSON") /\
  Reference.JSON_parse
    (Reference.JSON_stringify (VObj [("error", VStr "rejected"); ("n", VArr [VNum 4])]))
  = Return (VObj [("error", VStr "rejected"); ("n", VArr [VNum 4])]).
Proof. repeat split; reflexivity. Qed.

Example from_hex_samples :
  Reference.from_hex "000fA5ff" = [x00; x0f; xa5; xff]%byte /\
  Reference.from_hex "0fzz11" = [x0f]%byte /\
  Reference.from_hex "abc" = [xab]%byte.
Proof. repeat split; reflexivity. Qed.

Lemma append_assoc (a b c : string) : (a ++ b) ++ c = a ++ (b ++ c).
Proof.
  induction a as [|x a IH]; simpl.
  - reflexivity.
  - now rewrite IH.
Qed.

Lemma loose_eq_num_undefined (StringToNumber : string -> option Z) (n : Z) :
  loose_eq_num StringToNumber VUndefined n = false.
Proof. reflexivity. Qed.

Lemma loose_eq_num_same (StringToNumber : string -> option Z) (n : Z) :
  loose_eq_num StringToNumber (VNum n) n = true.
Proof. apply Z.eqb_refl. Qed.

(** A key that a property list does not bind reads as [undefined]. *)
Lemma Get_absent (props : list (string * value)) (key : string) :
  lookup key props = None -> Get (VObj props) key = Return VUndefined.
Proof. intros H. unfold Get. now rewrite H. Qed.

(** ** The constructor *)

Section ConstructorFacts.

Variable url_parse : string -> Url.t.
Variable hackchain_version : value.

(** The parsed URL has no [scheme] property, whatever the URI. *)
Lemma scheme_undefined (uri : string) : Url.get (url_parse uri) "scheme" = VUndefined.
Proof. reflexivity. Qed.

(** C4.  Whatever the URI, [parsed.scheme === 'http:'] is false: the client
    takes the HTTPS module (also for its agent), and its port is the URI's
    explicit port when there is one and 443 otherwise, never 80. *)
Theorem Client_always_https (uri : string) :
  strict_eq_str (Url.get (url_parse uri) "scheme") "http:" = false /\
  module (new_Client url_parse hackchain_version uri) = https /\
  agent_module (agent (new_Client url_parse hackchain_version uri)) = https /\
  port (new_Client url_parse hackchain_version uri) =
    match Url.port (url_parse uri) with
    | None => VNum 443
    | Some p => if String.eqb p "" then VNum 443 else VStr p
    end.
Proof.
  repeat split.
  unfold new_Client; simpl.
  change (Url.get (url_parse uri) "port") with (Url.str_or_null (Url.port (url_parse uri))).
  destruct (Url.port (url_parse uri)) as [p|]; simpl; [|reflexivity].
  destruct (String.eqb p ""); reflexivity.
Qed.

End ConstructorFacts.

(** An [http:] URI without a port: HTTPS on port 443. *)
Example http_uri_gets_https :
  Url.protocol (Reference.url_parse "http://api.test/") = Some "http:" /\
  module Reference.client = https /\
  port Reference.client = VNum 443 /\
  prefix Reference.client = "/v1".
Proof. repeat split; reflexivity. Qed.

(** ** The request primitive *)

Section RequestFacts.

Variable JSON_parse : string -> result value.
Context {R : Type}.
Variable callback : callback_t value R.

(** The chunks of a response are accumulated in order. *)
Lemma run_data (st : state R) (status : Z) (acc : string) (l : bool) (body : list string) :
  run_from JSON_parse callback
           (set_res st (Some {| statusCode := status; chunks := acc; end_listener := l |}))
           (map EvData body)
  = set_res st (Some {| statusCode := status; chunks := acc ++ body_text body;
                        end_listener := l |}).
Proof.
  revert acc. induction body as [|chunk body IH]; intros acc; simpl.
  - replace (acc ++ "") with acc; [reflexivity|].
    induction acc as [|x acc IHacc]; simpl; [reflexivity | now rewrite <- IHacc].
  - unfold run_from in IH. unfold set_res at 1. simpl.
    rewrite <- append_assoc. apply (IH (acc ++ chunk)).
Qed.

(** A whole response to a request that has none yet runs the 'end'
    listener once, on the status and the accumulated text. *)
Lemma run_respond (st : state R) (status : Z) (body : list string) :
  res st = None ->
  run_from JSON_parse callback st (respond status body)
  = on_end JSON_parse callback
           (set_res st (Some {| statusCode := status; chunks := body_text body;
                                end_listener := false |}))
           status (body_text body).
Proof.
  intros Hres. unfold respond, run_from. simpl. rewrite Hres.
  rewrite fold_left_app.
  pose proof (run_data st status "" true body) as H. unfold run_from in H.
  rewrite H. reflexivity.
Qed.

(** *** The completion guard, where it is used *)

Lemma done_guarded (st : state R) (c : completion value) :
  guarded st -> guarded (done callback st c).
Proof.
  intros [Hcalls Hres]. unfold done.
  destruct (once st) eqn:Honce.
  - split; [now rewrite Honce | exact Hres].
  - unfold call_callback. destruct (callback c) as [e|r]; split; simpl; try exact Hres.
    + lia.
    + rewrite length_app. simpl. lia.
Qed.

Lemma step_guarded (st : state R) (ev : event) :
  guarded st -> status_in_range ev -> guarded (step JSON_parse callback st ev).
Proof.
  intros Hg Hev. pose proof Hg as [Hcalls Hres].
  destruct ev as [status|chunk| |e]; simpl.
  - destruct (res st) eqn:E; [exact Hg|].
    split; [exact Hcalls|]. simpl. intros r Hr. inversion Hr; subst. exact Hev.
  - destruct (res st) as [r|] eqn:E; [|exact Hg].
    split; [exact Hcalls|]. simpl. intros r' Hr. inversion Hr; subst. simpl. now apply Hres.
  - destruct (res st) as [r|] eqn:E; [|exact Hg].
    destruct (end_listener r); [|exact Hg].
    assert (Hg' : guarded (set_res st (Some {| statusCode := statusCode r;
                                                chunks := chunks r;
                                                end_listener := false |}))).
    { split; [exact Hcalls|]. simpl. intros r' Hr. inversion Hr; subst. simpl. now apply Hres. }
    unfold on_end.
    destruct (JSON_parse (chunks r)) as [e|data]; [now apply done_guarded|].
    destruct (Get data "error") as [e|error]; [exact Hg'|].
    destruct (ToBoolean error); [now apply done_guarded|].
    specialize (Hres r eq_refl).
    replace ((statusCode r <? 200)%Z || (statusCode r >=? 400)%Z) with false
      by (symmetry; apply orb_false_iff; split; [apply Z.ltb_ge | rewrite Z.geb_leb; apply Z.leb_gt]; lia).
    now apply done_guarded.
  - destruct (error_listener st).
    + apply done_guarded. exact Hg.
    + exact Hg.
Qed.

(** X1.  When every response has a status in [200, 400), the callback is
    called at most once, whatever events arrive and in whatever order. *)
Theorem callback_at_most_once (events : list event) :
  Forall status_in_range events ->
  (List.length (calls (run_from JSON_parse callback initial events)) <= 1)%nat.
Proof.
  intros Hev.
  assert (H : forall st, guarded st -> guarded (run_from JSON_parse callback st events)).
  { induction Hev as [|ev events Hev _ IH]; intros st Hst; simpl; [exact Hst|].
    apply IH. now apply step_guarded. }
  destruct (H initial) as [Hcalls _].
  - split; simpl; [lia | discriminate].
  - destruct (once _); lia.
Qed.

End RequestFacts.


(** Rewriting through the 'end' listener, one test at a time. *)
Ltac through_on_end :=
  unfold on_end, Return, Throw in *;
  repeat match goal with
         | H : _ = _ |- _ => rewrite H; cbv beta iota
         end.

Section CompletionPaths.

Variable JSON_parse : string -> result value.
Variable c : Client.
Variables (method path : string) (headers : list (string * value)).

(** X8.  A response whose text does not decode fails the request with the
    decoder's exception, whatever the status, the callback being called
    once. *)
Lemma decode_failure_completes (status : Z) (body : list string) (e : exn) :
  JSON_parse (body_text body) = Throw e ->
  calls (observed JSON_parse c method path headers (respond status body)) = [Failed e].
Proof.
  intros Hparse. unfold observed, run.
  rewrite run_respond by reflexivity.
  through_on_end. reflexivity.
Qed.

(** A decoded body with a truthy [error] fails the request with it,
    whatever the status. *)
Lemma truthy_error_completes (status : Z) (body : list string) (data error : value) :
  JSON_parse (body_text body) = Return data ->
  Get data "error" = Return error ->
  ToBoolean error = true ->
  calls (observed JSON_parse c method path headers (respond status body)) = [Failed (Error (ToString error))].
Proof.
  intros Hparse Hget Htruthy. unfold observed, run.
  rewrite run_respond by reflexivity.
  through_on_end. reflexivity.
Qed.

(** X2.  A decoded body without a truthy [error] and a status in
    [200, 400) delivers the body, once. *)
Lemma success_completes (status : Z) (body : list string) (data error : value) :
  JSON_parse (body_text body) = Return data ->
  Get data "error" = Return error ->
  ToBoolean error = false ->
  200 <= status < 400 ->
  calls (observed JSON_parse c method path headers (respond status body)) = [Delivered data].
Proof.
  intros Hparse Hget Hfalsy Hrange. unfold observed, run.
  rewrite run_respond by reflexivity.
  assert (Hstatus : (status <? 200)%Z || (status >=? 400)%Z = false)
    by (apply orb_false_iff; split; [apply Z.ltb_ge | rewrite Z.geb_leb; apply Z.leb_gt]; lia).
  clear Hrange. through_on_end. reflexivity.
Qed.

(** A transport error alone fails the request with it. *)
Lemma transport_error_completes (e : exn) :
  calls (observed JSON_parse c method path headers [EvError e]) = [Failed e].
Proof. reflexivity. Qed.

(** The status-code failure does not go through [done]: the 'end' listener
    calls the callback whether or not the request has completed already,
    and leaves [once] as it was. *)
Lemma status_failure_skips_guard (st : state (completion value)) (status : Z)
      (text : string) (data error : value) :
  JSON_parse text = Return data ->
  Get data "error" = Return error ->
  ToBoolean error = false ->
  status < 200 \/ 400 <= status ->
  on_end JSON_parse record st status text =
  {| once := once st; error_listener := error_listener st; res := res st;
     calls := (calls st ++ [Failed (Error ("Client: statusCode " ++ dec status))])%list;
     uncaught := uncaught st |}.
Proof.
  intros Hparse Hget Hfalsy Hrange.
  assert (Hstatus : (status <? 200)%Z || (status >=? 400)%Z = true)
    by (apply orb_true_iff;
        destruct Hrange; [left; apply Z.ltb_lt | right; rewrite Z.geb_leb; apply Z.leb_le]; lia).
  clear Hrange. through_on_end. reflexivity.
Qed.

(** C2.  A response whose body decodes to JSON with a non-empty string in
    [error] fails the request with that string as the error message,
    whatever the HTTP status: the [error] test comes before the status
    test, and the callback is called once. *)
Theorem error_field_fails_request (status : Z) (body : list string)
        (data : value) (message : string) :
  JSON_parse (body_text body) = Return data ->
  Get data "error" = Return (VStr message) ->
  message <> "" ->
  calls (observed JSON_parse c method path headers (respond status body)) = [Failed (Error message)].
Proof.
  intros Hparse Hget Hmessage.
  apply (truthy_error_completes status body data (VStr message) Hparse Hget).
  simpl. apply negb_true_iff, String.eqb_neq. exact Hmessage.
Qed.

End CompletionPaths.

(** Status 200 with body [{error: 'rejected'}]: the request fails. *)
Lemma error_field_fails_request_witness :
  calls (observed Reference.JSON_parse Reference.client "GET" "/" []
                  (respond 200 [Reference.JSON_stringify (VObj [("error", VStr "rejected")])]))
  = [Failed (Error "rejected")].
Proof.
  apply (error_field_fails_request Reference.JSON_parse Reference.client "GET" "/" []
           200 _ (VObj [("error", VStr "rejected")]) "rejected").
  - reflexivity.
  - reflexivity.
  - discriminate.
Defined.

(** The same body split in two chunks, under status 500. *)
Example error_field_before_status :
  calls (observed Reference.JSON_parse Reference.client "GET" "/" []
                  (respond 500 ["{  "; Reference.JSON_stringify (VStr "error")
                                         ++ ": " ++ Reference.JSON_stringify (VStr "rejected") ++ "}"]))
  = [Failed (Error "rejected")].
Proof. reflexivity. Qed.

(** C1.  A response with status 500 and body [{}] followed by a transport
    error, and a transport error followed by such a response: in both
    orders the callback is called twice, the status failure reaching it
    outside the completion guard. *)
Theorem status_failure_completes_twice :
  calls (observed Reference.JSON_parse Reference.client "GET" "/" []
                  (respond 500 ["{}"] ++ [EvError (Error "socket hang up")])%list)
  = [Failed (Error "Client: statusCode 500"); Failed (Error "socket hang up")] /\
  calls (observed Reference.JSON_parse Reference.client "GET" "/" []
                  (EvError (Error "socket hang up") :: respond 500 ["{}"]))
  = [Failed (Error "socket hang up"); Failed (Error "Client: statusCode 500")].
Proof. split; reflexivity. Qed.

(** A body that decodes to [null]: reading [data.error] throws in the 'end'
    listener and the callback is never called. *)
Example null_body_never_completes :
  calls (observed Reference.JSON_parse Reference.client "GET" "/" [] (respond 200 ["null"])) = [] /\
  uncaught (observed Reference.JSON_parse Reference.client "GET" "/" [] (respond 200 ["null"]))
  = [TypeError].
Proof. split; reflexivity. Qed.

(** With statuses in range the guard holds in both orders. *)
Lemma callback_at_most_once_witness :
  (List.length (calls (run_from Reference.JSON_parse record initial
                                (EvError (Error "socket hang up") :: respond 200 ["{}"]))) <= 1)%nat.
Proof.
  apply (callback_at_most_once Reference.JSON_parse record).
  repeat constructor; simpl; lia.
Defined.

(** ** The operations *)

(** The calls a request's callback returns from are its results on what the
    request primitive completes with, in order: whether the primitive calls
    it, and with what, does not depend on the callback. *)
Section Callbacks.

Variable JSON_parse : string -> result value.
Context {R : Type}.
Variable callback : callback_t value R.

Lemma successes_app {A : Type} (l1 l2 : list (result A)) :
  successes (l1 ++ l2)%list = (successes l1 ++ successes l2)%list.
Proof.
  induction l1 as [|[e|a] l1 IH]; simpl; [reflexivity | exact IH | now rewrite IH].
Qed.

Lemma call_callback_same (st : state R) (st' : state (completion value))
      (c : completion value) :
  same_events callback st st' ->
  same_events callback (call_callback callback st c) (call_callback record st' c).
Proof.
  intros (Honce & Herr & Hres & Hcalls). unfold call_callback, record at 1. simpl.
  destruct (callback c) as [e|r] eqn:Hc; repeat split; simpl; try assumption.
  - rewrite map_app, successes_app. simpl. rewrite Hc. simpl.
    now rewrite app_nil_r.
  - rewrite map_app, successes_app. simpl. rewrite Hc. simpl.
    now rewrite Hcalls.
Qed.

Lemma done_same (st : state R) (st' : state (completion value)) (c : completion value) :
  same_events callback st st' ->
  same_events callback (done callback st c) (done record st' c).
Proof.
  intros Hsame. pose proof Hsame as (Honce & Herr & Hres & Hcalls).
  unfold done. rewrite Honce. destruct (once st'); [exact Hsame|].
  apply call_callback_same. repeat split; assumption.
Qed.

Lemma step_same (st : state R) (st' : state (completion value)) (ev : event) :
  same_events callback st st' ->
  same_events callback (step JSON_parse callback st ev) (step JSON_parse record st' ev).
Proof.
  intros Hsame. pose proof Hsame as (Honce & Herr & Hres & Hcalls).
  destruct ev as [status|chunk| |e]; simpl; rewrite ?Hres, ?Herr.
  - destruct (res st'); [exact Hsame|]. repeat split; assumption.
  - destruct (res st'); [|exact Hsame]. repeat split; assumption.
  - destruct (res st') as [r|]; [|exact Hsame].
    destruct (end_listener r); [|exact Hsame].
    unfold on_end.
    destruct (JSON_parse (chunks r)) as [e|data].
    + apply done_same. repeat split; assumption.
    + destruct (Get data "error") as [e|error]; [unfold throw_uncaught; repeat split; assumption|].
      destruct (ToBoolean error); [apply done_same; repeat split; assumption|].
      destruct ((statusCode r <? 200)%Z || (statusCode r >=? 400)%Z).
      * apply call_callback_same. repeat split; assumption.
      * apply done_same. repeat split; assumption.
  - destruct (error_listener st') eqn:Hlistener.
    + apply done_same. repeat split; assumption.
    + unfold throw_uncaught. repeat split; simpl; congruence.
Qed.

Theorem run_calls (events : list event) :
  calls (run_from JSON_parse callback initial events)
  = successes (map callback (completions JSON_parse events)).
Proof.
  unfold completions.
  assert (H : forall (st : state R) (st' : state (completion value)),
             same_events callback st st' ->
             same_events callback (run_from JSON_parse callback st events)
                         (run_from JSON_parse record st' events)).
  { induction events as [|ev events IH]; intros st st' Hsame; simpl; [exact Hsame|].
    apply IH, step_same, Hsame. }
  destruct (H initial initial) as (_ & _ & _ & Hcalls); [repeat split|].
  exact Hcalls.
Qed.

End Callbacks.

Section ApiFacts.

Variable url_parse : string -> Url.t.
Variable hackchain_version : value.
Variable JSON_parse : string -> result value.
Variable JSON_stringify : value -> string.

(** Every operation goes to [prefix + path] with the two fixed headers. *)
Lemma get_request {R : Type} (c : Client) (path : string) (callback : callback_t value R) :
  req_module (Api.get c path callback) = module c /\
  o_method (req_options (Api.get c path callback)) = "GET" /\
  o_path (req_options (Api.get c path callback)) = prefix c ++ path /\
  o_headers (req_options (Api.get c path callback)) =
    [("User-Agent", VStr ("hackchain/client_v" ++ ToString (version c)));
     ("Content-Type", VStr "application/json")] /\
  req_ended (Api.get c path callback) = true /\
  req_body (Api.get c path callback) = None /\
  req_callback (Api.get c path callback) = callback.
Proof. repeat split. Qed.

Section SpendFacts.

Context {TX : Type}.
Variable TX_render : TX -> list byte.
Variable TX_hash : TX -> list byte.

(** What [spendTX] does with its own callback, for any callback of the
    caller. *)
Lemma spendTX_callback {R : Type} (c : Client) (tx : TX) (nonce : value)
      (callback : callback_t TX R) :
  (forall data : value,
     req_callback (Api.spendTX JSON_stringify TX_render TX_hash c tx nonce callback)
                  (Delivered data)
     = callback (Delivered tx)) /\
  (forall err : exn,
     req_callback (Api.spendTX JSON_stringify TX_render TX_hash c tx nonce callback)
                  (Failed err)
     = callback (Failed err)).
Proof. split; reflexivity. Qed.

(** On every sequence of events, [spendTX] passes on what the request
    primitive completes with: a failure as it is, a success as [tx]. *)
Lemma spendTX_calls (c : Client) (tx : TX) (nonce : value) (events : list event) :
  calls (run JSON_parse (Api.spendTX JSON_stringify TX_render TX_hash c tx nonce record) events)
  = map (fun r => match r with
                  | Failed err => Failed err
                  | Delivered _ => Delivered tx
                  end)
        (completions JSON_parse events).
Proof.
  unfold run. rewrite run_calls.
  induction (completions JSON_parse events) as [|[err|data] l IH]; simpl;
    [reflexivity | now rewrite <- IH | now rewrite <- IH].
Qed.

(** C8.  [spendTX] renders the transaction to hex and issues a POST to
    [/v1/tx/<hex of the transaction's hash>] whose body is the JSON text of
    [{tx: <hex of the rendering>}] and whose [X-Proof-Of-Work] header is the
    nonce.  On any sequence of transport events on which the request
    succeeds, delivering whatever data, the caller receives, once, the
    transaction that was passed in; on any on which it fails the caller
    receives the failure. *)
Theorem spendTX_submits_and_returns_tx (uri : string) (tx : TX) (nonce : value) :
  o_method (req_options
    (Api.spendTX JSON_stringify TX_render TX_hash
       (new_Client url_parse hackchain_version uri) tx nonce record)) = "POST" /\
  o_path (req_options
    (Api.spendTX JSON_stringify TX_render TX_hash
       (new_Client url_parse hackchain_version uri) tx nonce record))
  = "/v1/tx/" ++ toString_hex (TX_hash tx) /\
  req_body
    (Api.spendTX JSON_stringify TX_render TX_hash
       (new_Client url_parse hackchain_version uri) tx nonce record)
  = Some (JSON_stringify (VObj [("tx", VStr (toString_hex (TX_render tx)))])) /\
  lookup "X-Proof-Of-Work" (o_headers (req_options
    (Api.spendTX JSON_stringify TX_render TX_hash
       (new_Client url_parse hackchain_version uri) tx nonce record)))
  = Some nonce /\
  (forall (events : list event) (data : value),
     completions JSON_parse events = [Delivered data] ->
     calls (run JSON_parse
              (Api.spendTX JSON_stringify TX_render TX_hash
                 (new_Client url_parse hackchain_version uri) tx nonce record) events)
     = [Delivered tx]) /\
  (forall (events : list event) (err : exn),
     completions JSON_parse events = [Failed err] ->
     calls (run JSON_parse
              (Api.spendTX JSON_stringify TX_render TX_hash
                 (new_Client url_parse hackchain_version uri) tx nonce record) events)
     = [Failed err]).
Proof.
  repeat split.
  - intros events data Hdone. rewrite spendTX_calls, Hdone. reflexivity.
  - intros events err Hdone. rewrite spendTX_calls, Hdone. reflexivity.
Qed.

End SpendFacts.

(** [getInfo] with a recording callback sees what the request primitive
    completes with. *)
Lemma getInfo_calls (c : Client) (events : list event) :
  calls (run JSON_parse (Api.getInfo c record) events) = completions JSON_parse events.
Proof. reflexivity. Qed.

(** What [getComplexity] does with its own callback, for any callback of
    the caller. *)
Lemma getComplexity_callback {R : Type} (c : Client) (callback : callback_t value R) :
  req_options (Api.getComplexity c callback) = req_options (Api.getInfo c callback) /\
  (forall (info : value) (n : Z),
     Get info "proof-of-work-complexity" = Return (VNum n) ->
     req_callback (Api.getComplexity c callback) (Delivered info)
     = callback (Delivered (VNum n))) /\
  (forall info : value,
     Get info "proof-of-work-complexity" = Return VUndefined ->
     req_callback (Api.getComplexity c callback) (Delivered info)
     = callback (Delivered (VNum 0))) /\
  (forall err : exn,
     req_callback (Api.getComplexity c callback) (Failed err) = callback (Failed err)).
Proof.
  repeat split.
  - intros info n Hget. simpl. rewrite Hget. simpl.
    destruct (Z.eqb_spec n 0) as [->|_]; reflexivity.
  - intros info Hget. simpl. rewrite Hget. reflexivity.
Qed.

(** C10.  On any sequence of transport events: when [getInfo] delivers an
    info record that carries a number under ['proof-of-work-complexity'],
    [getComplexity] delivers that number; when the record has no such
    field, [getComplexity] delivers 0; when [getInfo] fails,
    [getComplexity] fails with the same error. *)
Theorem getComplexity_reads_info (c : Client) (events : list event) :
  (forall (info : value) (n : Z),
     calls (run JSON_parse (Api.getInfo c record) events) = [Delivered info] ->
     Get info "proof-of-work-complexity" = Return (VNum n) ->
     calls (run JSON_parse (Api.getComplexity c record) events) = [Delivered (VNum n)]) /\
  (forall info : value,
     calls (run JSON_parse (Api.getInfo c record) events) = [Delivered info] ->
     Get info "proof-of-work-complexity" = Return VUndefined ->
     calls (run JSON_parse (Api.getComplexity c record) events) = [Delivered (VNum 0)]) /\
  (forall err : exn,
     calls (run JSON_parse (Api.getInfo c record) events) = [Failed err] ->
     calls (run JSON_parse (Api.getComplexity c record) events) = [Failed err]).
Proof.
  destruct (getComplexity_callback c (@record value)) as (_ & Hnum & Habsent & Hfail).
  repeat split.
  - intros info n Hinfo Hget. rewrite getInfo_calls in Hinfo.
    unfold run. rewrite run_calls, Hinfo. cbn [map].
    now rewrite (Hnum info n Hget).
  - intros info Hinfo Hget. rewrite getInfo_calls in Hinfo.
    unfold run. rewrite run_calls, Hinfo. cbn [map].
    now rewrite (Habsent info Hget).
  - intros err Hinfo. rewrite getInfo_calls in Hinfo.
    unfold run. rewrite run_calls, Hinfo. cbn [map].
    now rewrite (Hfail err).
Qed.

Section NonceFacts.

Variable solve : value -> result (list byte).

(** [getNonce] is [getComplexity] with a callback of its own. *)
Lemma getNonce_callback {R : Type} (c : Client) (callback : callback_t string R) :
  exists compose : callback_t value R,
    Api.getNonce solve c callback = Api.getComplexity c compose /\
    (forall (complexity : value) (nonce : list byte),
       solve complexity = Return nonce ->
       compose (Delivered complexity)
       = callback (Delivered (ToString complexity ++ ":" ++ toString_hex nonce))) /\
    (forall err : exn, compose (Failed err) = callback (Failed err)).
Proof.
  eexists. split; [reflexivity|]. split.
  - intros complexity nonce Hsolve. simpl. rewrite Hsolve. reflexivity.
  - reflexivity.
Qed.

(** Chaining two callbacks, the first of which only transforms. *)
Lemma successes_chain {A B C : Type} (f : A -> result B) (g : B -> result C) (l : list A) :
  successes (map (fun a => b <- f a;; g b) l) = successes (map g (successes (map f l))).
Proof.
  induction l as [|a l IH]; simpl; [reflexivity|].
  unfold bind at 1. destruct (f a) as [e|b]; simpl; [exact IH|].
  destruct (g b) as [e|x]; [exact IH | now rewrite IH].
Qed.

(** On every sequence of events, what [getNonce] hands its caller is what
    its own callback makes of what [getComplexity] hands it. *)
Lemma getNonce_calls (c : Client) (events : list event) :
  calls (run JSON_parse (Api.getNonce solve c record) events)
  = successes
      (map (fun r : completion value =>
              match r with
              | Failed err => Return (Failed err)
              | Delivered complexity =>
                  nonce <- solve complexity;;
                  Return (Delivered (ToString complexity ++ ":" ++ toString_hex nonce))
              end)
           (calls (run JSON_parse (Api.getComplexity c record) events))).
Proof.
  unfold run. rewrite !run_calls.
  rewrite <- successes_chain. f_equal. apply map_ext.
  intros [err|info]; simpl; [reflexivity|].
  unfold bind. destruct (Get info "proof-of-work-complexity") as [e|v]; reflexivity.
Qed.

(** C9.  On any sequence of transport events: when [getComplexity]
    delivers a complexity and the solver returns a nonce for it, [getNonce]
    delivers exactly the complexity, a colon and the hex of that nonce; when
    [getComplexity] fails, [getNonce] fails with the same error, and this
    for every solver, also one that would throw on any call: the solver is
    not run. *)
Theorem getNonce_composes (c : Client) (events : list event) :
  (forall (complexity : value) (nonce : list byte),
     calls (run JSON_parse (Api.getComplexity c record) events) = [Delivered complexity] ->
     solve complexity = Return nonce ->
     calls (run JSON_parse (Api.getNonce solve c record) events)
     = [Delivered (ToString complexity ++ ":" ++ toString_hex nonce)]) /\
  (forall err : exn,
     calls (run JSON_parse (Api.getComplexity c record) events) = [Failed err] ->
     calls (run JSON_parse (Api.getNonce solve c record) events) = [Failed err]).
Proof.
  split.
  - intros complexity nonce Hcomplexity Hsolve.
    rewrite getNonce_calls, Hcomplexity. simpl. rewrite Hsolve. reflexivity.
  - intros err Hcomplexity.
    rewrite getNonce_calls, Hcomplexity. reflexivity.
Qed.

End NonceFacts.

End ApiFacts.

(** The failure of [getComplexity] reaches the caller under a solver that
    throws whenever it is run; complexity 4 from the service gives the
    token ["4:<hex>"]. *)
Lemma getNonce_composes_witness :
  calls (run Reference.JSON_parse
             (Api.getNonce (fun _ => Throw (Error "solver was run")) Reference.client record)
             [EvError (Error "connect ECONNREFUSED")])
  = [Failed (Error "connect ECONNREFUSED")] /\
  calls (run Reference.JSON_parse
             (Api.getNonce Reference.solve Reference.client record)
             (respond 200 [Reference.JSON_stringify
                             (VObj [("proof-of-work-complexity", VNum 4)])]))
  = [Delivered "4:002a"].
Proof.
  split.
  - refine (proj2 (getNonce_composes Reference.JSON_parse
                     (fun _ => Throw (Error "solver was run")) Reference.client
                     [EvError (Error "connect ECONNREFUSED")])
                  (Error "connect ECONNREFUSED") _).
    reflexivity.
  - refine (proj1 (getNonce_composes Reference.JSON_parse Reference.solve Reference.client
                     (respond 200 [Reference.JSON_stringify
                                     (VObj [("proof-of-work-complexity", VNum 4)])]))
                  (VNum 4) [x00; x2a]%byte _ _); reflexivity.
Defined.

(** An info record with complexity 4, one without the field, and a
    request that fails. *)
Lemma getComplexity_reads_info_witness :
  calls (run Reference.JSON_parse
             (Api.getComplexity Reference.client record)
             (respond 200 [Reference.JSON_stringify
                             (VObj [("proof-of-work-complexity", VNum 4)])]))
  = [Delivered (VNum 4)] /\
  calls (run Reference.JSON_parse
             (Api.getComplexity Reference.client record)
             (respond 200 [Reference.JSON_stringify (VObj [("lastBlock", VStr "00")])]))
  = [Delivered (VNum 0)] /\
  calls (run Reference.JSON_parse
             (Api.getComplexity Reference.client record)
             (respond 503 ["<html>"]))
  = [Failed (SyntaxError "Unexpected token in JSON")].
Proof.
  split; [|split].
  - refine (proj1 (getComplexity_reads_info Reference.JSON_parse Reference.client _)
                  (VObj [("proof-of-work-complexity", VNum 4)]) 4 _ _); reflexivity.
  - refine (proj1 (proj2 (getComplexity_reads_info Reference.JSON_parse Reference.client _))
                  (VObj [("lastBlock", VStr "00")]) _ _); reflexivity.
  - refine (proj2 (proj2 (getComplexity_reads_info Reference.JSON_parse Reference.client _))
                  (SyntaxError "Unexpected token in JSON") _); reflexivity.
Defined.

(** A mock service that echoes the submitted transaction under status 200:
    the caller gets its transaction back. *)
Lemma spendTX_submits_and_returns_tx_witness :
  calls (run Reference.JSON_parse
             (Api.spendTX Reference.JSON_stringify Reference.TX_render Reference.TX_hash
                          Reference.client Reference.new_TX (VStr "4:002a") record)
             (respond 200 [Reference.JSON_stringify
                             (VObj [("tx", VStr (toString_hex
                                                   (Reference.TX_render Reference.new_TX)))])]))
  = [Delivered Reference.new_TX].
Proof.
  refine (proj1 (proj2 (proj2 (proj2 (proj2
            (spendTX_submits_and_returns_tx Reference.url_parse (VStr "1.0.0")
               Reference.JSON_parse Reference.JSON_stringify Reference.TX_render
               Reference.TX_hash "http://api.test/" Reference.new_TX (VStr "4:002a"))))))
            _ (VObj [("tx", VStr "010000")]) _).
  reflexivity.
Defined.

(** The request [spendTX] sends for the empty transaction. *)
Example spendTX_request :
  req_body (Api.spendTX Reference.JSON_stringify Reference.TX_render Reference.TX_hash
                        Reference.client Reference.new_TX (VStr "4:002a") (@record Reference.TX))
  = Some (Reference.JSON_stringify (VObj [("tx", VStr "010000")])) /\
  o_path (req_options
            (Api.spendTX Reference.JSON_stringify Reference.TX_render Reference.TX_hash
                         Reference.client Reference.new_TX (VStr "4:002a") (@record Reference.TX)))
  = "/v1/tx/00" /\
  o_headers (req_options
            (Api.spendTX Reference.JSON_stringify Reference.TX_render Reference.TX_hash
                         Reference.client Reference.new_TX (VStr "4:002a") (@record Reference.TX)))
  = [("User-Agent", VStr "hackchain/client_v1.0.0");
     ("Content-Type", VStr "application/json");
     ("X-Proof-Of-Work", VStr "4:002a")].
Proof. repeat split; reflexivity. Qed.

(** ** The transaction builder *)

Lemma each_app {A : Type} (body : A -> value -> result A) (acc : A) (l1 l2 : list value) :
  Builder.each body acc (l1 ++ l2)%list
  = (acc' <- Builder.each body acc l1;; Builder.each body acc' l2).
Proof.
  revert acc. induction l1 as [|x l1 IH]; intros acc; simpl.
  - reflexivity.
  - unfold bind at 1 3. destruct (body acc x) as [e|acc']; [reflexivity|]. apply IH.
Qed.

(** Running a chain of checks under equations for its reads and tests. *)
Ltac run_checks :=
  unfold bind, assert, Return, Throw in *;
  repeat (match goal with
          | H : _ = _ |- _ => rewrite H
          end;
          rewrite ?String.eqb_refl; cbv beta iota).

Section BuilderFacts.

Context {TX Script BNum : Type}.
Variable TX_version : Z.
Variable new_TX : TX.
Variable TX_input : TX -> list byte -> value -> Script -> result TX.
Variable TX_output : TX -> BNum -> Script -> result TX.
Variable compileTextArray : value -> result Script.
Variable Buffer_from : value -> string -> result (list byte).
Variable BN : value -> Z -> result BNum.
Variable StringToNumber : string -> option Z.
Context {R : Type}.

Local Abbreviation parseTX :=
  (Builder.parseTX TX_version new_TX TX_input TX_output compileTextArray Buffer_from BN
                   StringToNumber).
Local Abbreviation parse_input := (Builder.parse_input TX_input compileTextArray Buffer_from).
Local Abbreviation parse_output := (Builder.parse_output TX_output compileTextArray BN).
Local Abbreviation envelope := (Builder.envelope TX_version).

(** Past the three checks on the envelope, [parseTX] is its two loops. *)
Lemma parseTX_loops (ins outs : list value) (callback : callback_t TX R) :
  parseTX (envelope ins outs) callback
  = (tx <- Builder.each parse_input new_TX ins;;
     tx <- Builder.each parse_output tx outs;;
     callback (Delivered tx)).
Proof.
  unfold Builder.parseTX, Builder.envelope.
  change (Get (VObj [("version", VNum TX_version); ("inputs", VArr ins); ("outputs", VArr outs)])
              "version") with (@Return value (VNum TX_version)).
  change (Get (VObj [("version", VNum TX_version); ("inputs", VArr ins); ("outputs", VArr outs)])
              "inputs") with (@Return value (VArr ins)).
  change (Get (VObj [("version", VNum TX_version); ("inputs", VArr ins); ("outputs", VArr outs)])
              "outputs") with (@Return value (VArr outs)).
  unfold bind at 1. unfold Return at 1.
  rewrite loose_eq_num_same. reflexivity.
Qed.

(** C3 (amended).  [parseTX] compares [data.version] with [TX.version]
    whether or not the field is there: input whose version is not (loosely)
    equal to the constant is rejected with the version error, and so is
    input without a version field, which reads as [undefined]. *)
Theorem parseTX_version_guard (callback : callback_t TX R) :
  (forall data version : value,
     Get data "version" = Return version ->
     loose_eq_num StringToNumber version TX_version = false ->
     parseTX data callback
     = Throw (AssertionError ("Client: version must be " ++ dec TX_version))) /\
  (forall props : list (string * value),
     lookup "version" props = None ->
     parseTX (VObj props) callback
     = Throw (AssertionError ("Client: version must be " ++ dec TX_version))).
Proof.
  assert (Hguard : forall data version : value,
             Get data "version" = Return version ->
             loose_eq_num StringToNumber version TX_version = false ->
             parseTX data callback
             = Throw (AssertionError ("Client: version must be " ++ dec TX_version))).
  { intros data version Hget Hneq. unfold Builder.parseTX.
    rewrite Hget. unfold bind at 1. unfold Return at 1.
    rewrite Hneq. reflexivity. }
  split; [exact Hguard|].
  intros props Habsent.
  apply (Hguard (VObj props) VUndefined).
  - now apply Get_absent.
  - apply loose_eq_num_undefined.
Qed.

(** C7.  Structured input with the right version and an array under
    [inputs], whose [outputs] is the number 5: the error [parseTX] throws
    names [tx.inputs]. *)
Theorem parseTX_outputs_error_names_inputs (callback : callback_t TX R) :
  parseTX (VObj [("version", VNum TX_version); ("inputs", VArr []); ("outputs", VNum 5)])
          callback
  = Throw (AssertionError "Client: `tx.inputs` must be an Array").
Proof.
  unfold Builder.parseTX.
  change (Get (VObj [("version", VNum TX_version); ("inputs", VArr []); ("outputs", VNum 5)])
              "version") with (@Return value (VNum TX_version)).
  unfold bind at 1. unfold Return at 1.
  rewrite loose_eq_num_same. reflexivity.
Qed.

(** What the loop over [data.inputs] does with one input record whose
    earlier fields pass: the test on [index] is [typeof index == 'number']. *)
Lemma parse_input_index (tx : TX) (input h i : value) :
  ToBoolean input && String.eqb (typeof input) "object" = true ->
  Get input "hash" = Return h ->
  typeof h = "string" ->
  Get input "index" = Return i ->
  (typeof i <> "number" ->
   parse_input tx input
   = Throw (AssertionError "Client: `tx.inputs[].number` must be a number")) /\
  (forall s : value,
     typeof i = "number" ->
     Get input "script" = Return s ->
     isArray s = true ->
     parse_input tx input
     = (hash <- Buffer_from h "hex";;
        script <- compileTextArray s;;
        TX_input tx hash i script)).
Proof.
  intros Hobj Hhash Hstr Hindex. unfold Builder.parse_input. split.
  - intros Hnot. apply String.eqb_neq in Hnot. run_checks. reflexivity.
  - intros s Hnum Hscript Harr. run_checks. reflexivity.
Qed.

(** What the loop over [data.outputs] does with one output record: the test
    on [value] is [typeof value == 'string']. *)
Lemma parse_output_value (tx : TX) (output v : value) :
  ToBoolean output && String.eqb (typeof output) "object" = true ->
  Get output "value" = Return v ->
  (typeof v <> "string" ->
   parse_output tx output
   = Throw (AssertionError "Client: `tx.output[].value` must be a decimal string")) /\
  (forall s : value,
     typeof v = "string" ->
     Get output "script" = Return s ->
     isArray s = true ->
     parse_output tx output
     = (value <- BN v 10;;
        script <- compileTextArray s;;
        TX_output tx value script)).
Proof.
  intros Hobj Hvalue. unfold Builder.parse_output. split.
  - intros Hnot. apply String.eqb_neq in Hnot. run_checks. reflexivity.
  - intros s Hstr Hscript Harr. run_checks. reflexivity.
Qed.

(** X21.  For an input record at any position of [inputs], the records
    before it accepted: [parseTX] itself tests of [index] only that it is a
    number.  An index that is not a number (an absent one included) is
    rejected with the assertion error of that test; an integer, negative or
    not, passes the test and is handed unchanged to [tx.input], the build
    going on from what [tx.input] returns or throws. *)
Theorem parseTX_index_check (before after outs : list value) (input h i : value)
        (tx : TX) (callback : callback_t TX R) :
  Builder.each parse_input new_TX before = Return tx ->
  ToBoolean input && String.eqb (typeof input) "object" = true ->
  Get input "hash" = Return h ->
  typeof h = "string" ->
  Get input "index" = Return i ->
  (typeof i <> "number" ->
   parseTX (envelope (before ++ input :: after) outs) callback
   = Throw (AssertionError "Client: `tx.inputs[].number` must be a number")) /\
  (forall s : value,
     typeof i = "number" ->
     Get input "script" = Return s ->
     isArray s = true ->
     parseTX (envelope (before ++ input :: after) outs) callback
     = (hash <- Buffer_from h "hex";;
        script <- compileTextArray s;;
        tx <- TX_input tx hash i script;;
        tx <- Builder.each parse_input tx after;;
        tx <- Builder.each parse_output tx outs;;
        callback (Delivered tx))).
Proof.
  intros Hbefore Hobj Hhash Hstr Hindex.
  destruct (parse_input_index tx input h i Hobj Hhash Hstr Hindex) as [Hreject Haccept].
  split.
  - intros Hnot. rewrite parseTX_loops, each_app, Hbefore.
    simpl. rewrite (Hreject Hnot). reflexivity.
  - intros s Hnum Hscript Harr. rewrite parseTX_loops, each_app, Hbefore.
    simpl. rewrite (Haccept s Hnum Hscript Harr).
    unfold bind. destruct (Buffer_from h "hex") as [e|hash]; [reflexivity|].
    destruct (compileTextArray s) as [e|script]; [reflexivity|].
    destruct (TX_input tx hash i script) as [e|tx']; reflexivity.
Qed.

(** X20.  For an output record at any position of [outputs], the inputs
    and the records before it accepted: [parseTX] itself tests of [value]
    only that it is a string.  A value that is not a string (an absent one
    included) is rejected with the assertion error of that test; a string,
    whatever it holds, passes the test and is handed unchanged to
    [new BN(value, 10)], the build going on from what that returns or
    throws. *)
Theorem parseTX_value_check (ins before after : list value) (output v : value)
        (tx0 tx : TX) (callback : callback_t TX R) :
  Builder.each parse_input new_TX ins = Return tx0 ->
  Builder.each parse_output tx0 before = Return tx ->
  ToBoolean output && String.eqb (typeof output) "object" = true ->
  Get output "value" = Return v ->
  (typeof v <> "string" ->
   parseTX (envelope ins (before ++ output :: after)) callback
   = Throw (AssertionError "Client: `tx.output[].value` must be a decimal string")) /\
  (forall s : value,
     typeof v = "string" ->
     Get output "script" = Return s ->
     isArray s = true ->
     parseTX (envelope ins (before ++ output :: after)) callback
     = (value <- BN v 10;;
        script <- compileTextArray s;;
        tx <- TX_output tx value script;;
        tx <- Builder.each parse_output tx after;;
        callback (Delivered tx))).
Proof.
  intros Hins Hbefore Hobj Hvalue.
  destruct (parse_output_value tx output v Hobj Hvalue) as [Hreject Haccept].
  split.
  - intros Hnot. rewrite parseTX_loops, Hins. simpl. rewrite each_app, Hbefore.
    simpl. rewrite (Hreject Hnot). reflexivity.
  - intros s Hstr Hscript Harr. rewrite parseTX_loops, Hins. simpl.
    rewrite each_app, Hbefore. simpl. rewrite (Haccept s Hstr Hscript Harr).
    unfold bind. destruct (BN v 10) as [e|value]; [reflexivity|].
    destruct (compileTextArray s) as [e|script]; [reflexivity|].
    destruct (TX_output tx value script) as [e|tx']; reflexivity.
Qed.

End BuilderFacts.

(** *** The builder on concrete input *)

(** A well-formed transaction is built in order. *)
Example parseTX_builds :
  Reference.parseTX
    (Reference.envelope
       [VObj [("hash", VStr Reference.hash_hex); ("index", VNum 0); ("script", VArr [VStr "push"])]]
       [VObj [("value", VStr "25"); ("script", VArr [])];
        VObj [("value", VStr "17"); ("script", VArr [VStr "irq"; VStr "yield"])]])
  = Return (Delivered
      {| Reference.inputs :=
           [{| Reference.in_hash := Reference.hash_bytes; Reference.in_index := VNum 0;
               Reference.in_script := ["push"] |}];
         Reference.outputs :=
           [{| Reference.out_value := 25; Reference.out_script := [] |};
            {| Reference.out_value := 17; Reference.out_script := ["irq"; "yield"] |}] |}).
Proof. reflexivity. Qed.

(** Version 2 where 1 is expected, and the empty object: both rejected. *)
Lemma parseTX_version_guard_witness :
  Reference.parseTX (VObj [("version", VNum 2); ("inputs", VArr []); ("outputs", VArr [])])
  = Throw (AssertionError "Client: version must be 1") /\
  Reference.parseTX (VObj []) = Throw (AssertionError "Client: version must be 1").
Proof.
  split.
  - refine (proj1 (parseTX_version_guard Reference.TX_version Reference.new_TX
                     Reference.TX_input Reference.TX_output Reference.compileTextArray
                     Reference.Buffer_from Reference.BN Reference.StringToNumber record)
                  _ (VNum 2) _ _); reflexivity.
  - refine (proj2 (parseTX_version_guard Reference.TX_version Reference.new_TX
                     Reference.TX_input Reference.TX_output Reference.compileTextArray
                     Reference.Buffer_from Reference.BN Reference.StringToNumber record)
                  [] _); reflexivity.
Defined.

(** C3, as stated, fails: structured input that has no [version] field, and
    is well formed otherwise, is rejected with the version error. *)
Lemma parseTX_rejects_absent_version :
  lookup "version" [("inputs", VArr []); ("outputs", VArr [])] = None /\
  Reference.parseTX (VObj [("inputs", VArr []); ("outputs", VArr [])])
  = Throw (AssertionError "Client: version must be 1").
Proof. split; reflexivity. Qed.

(** The version is compared loosely: the string ['1'] passes. *)
Example parseTX_version_string :
  Reference.parseTX (VObj [("version", VStr "1"); ("inputs", VArr []); ("outputs", VArr [])])
  = Return (Delivered Reference.new_TX).
Proof. reflexivity. Qed.

(** The index test after one accepted input: the number -1 goes through to
    [tx.input], which refuses it in this instance; the string ['0'] is
    rejected by [parseTX]. *)
Lemma parseTX_index_check_witness :
  Reference.parseTX
    (Reference.envelope
       [VObj [("hash", VStr Reference.hash_hex); ("index", VNum 0); ("script", VArr [])];
        VObj [("hash", VStr Reference.hash_hex); ("index", VNum (-1));
              ("script", VArr [VStr "push"])]]
       [])
  = Throw (AssertionError "Input: index must be a non-negative integer") /\
  Reference.parseTX
    (Reference.envelope
       [VObj [("hash", VStr Reference.hash_hex); ("index", VNum 0); ("script", VArr [])];
        VObj [("hash", VStr Reference.hash_hex); ("index", VStr "0");
              ("script", VArr [VStr "push"])]]
       [])
  = Throw (AssertionError "Client: `tx.inputs[].number` must be a number").
Proof.
  split.
  - refine (proj2 (parseTX_index_check Reference.TX_version Reference.new_TX
                     Reference.TX_input Reference.TX_output Reference.compileTextArray
                     Reference.Buffer_from Reference.BN Reference.StringToNumber
                     [VObj [("hash", VStr Reference.hash_hex); ("index", VNum 0);
                            ("script", VArr [])]]
                     [] []
                     (VObj [("hash", VStr Reference.hash_hex); ("index", VNum (-1));
                            ("script", VArr [VStr "push"])])
                     (VStr Reference.hash_hex) (VNum (-1))
                     {| Reference.inputs :=
                          [{| Reference.in_hash := Reference.hash_bytes;
                              Reference.in_index := VNum 0;
                              Reference.in_script := [] |}];
                        Reference.outputs := [] |}
                     record _ _ _ _ _)
                  (VArr [VStr "push"]) _ _ _); reflexivity.
  - refine (proj1 (parseTX_index_check Reference.TX_version Reference.new_TX
                     Reference.TX_input Reference.TX_output Reference.compileTextArray
                     Reference.Buffer_from Reference.BN Reference.StringToNumber
                     [VObj [("hash", VStr Reference.hash_hex); ("index", VNum 0);
                            ("script", VArr [])]]
                     [] []
                     (VObj [("hash", VStr Reference.hash_hex); ("index", VStr "0");
                            ("script", VArr [VStr "push"])])
                     (VStr Reference.hash_hex) (VStr "0")
                     {| Reference.inputs :=
                          [{| Reference.in_hash := Reference.hash_bytes;
                              Reference.in_index := VNum 0;
                              Reference.in_script := [] |}];
                        Reference.outputs := [] |}
                     record _ _ _ _ _) _); try reflexivity.
    discriminate.
Defined.

Example parseTX_rejects_non_number_index :
  Reference.parseTX
    (Reference.envelope
       [VObj [("hash", VStr Reference.hash_hex); ("index", VStr "0"); ("script", VArr [])]] [])
  = Throw (AssertionError "Client: `tx.inputs[].number` must be a number") /\
  Reference.parseTX
    (Reference.envelope [VObj [("hash", VStr Reference.hash_hex); ("script", VArr [])]] [])
  = Throw (AssertionError "Client: `tx.inputs[].number` must be a number").
Proof. split; reflexivity. Qed.

(** A hash that is not of the identifier length passes the tests of
    [parseTX] and is refused by the transaction class of this instance. *)
Example parseTX_short_hash :
  Reference.parseTX
    (Reference.envelope
       [VObj [("hash", VStr "00ff"); ("index", VNum 0); ("script", VArr [])]] [])
  = Throw (AssertionError "Input: hash must have the identifier length").
Proof. reflexivity. Qed.

(** The value test after one accepted output: the string ['-5'] goes through
    to the big-number constructor, which refuses it in this instance; the
    number 5 is rejected by [parseTX]. *)
Lemma parseTX_value_check_witness :
  Reference.parseTX
    (Reference.envelope []
       [VObj [("value", VStr "10"); ("script", VArr [])];
        VObj [("value", VStr "-5"); ("script", VArr [VStr "push"])]])
  = Throw (AssertionError "BN: not a non-negative decimal string") /\
  Reference.parseTX
    (Reference.envelope []
       [VObj [("value", VStr "10"); ("script", VArr [])];
        VObj [("value", VNum 5); ("script", VArr [VStr "push"])]])
  = Throw (AssertionError "Client: `tx.output[].value` must be a decimal string").
Proof.
  split.
  - refine (proj2 (parseTX_value_check Reference.TX_version Reference.new_TX
                     Reference.TX_input Reference.TX_output Reference.compileTextArray
                     Reference.Buffer_from Reference.BN Reference.StringToNumber
                     [] [VObj [("value", VStr "10"); ("script", VArr [])]] []
                     (VObj [("value", VStr "-5"); ("script", VArr [VStr "push"])])
                     (VStr "-5") Reference.new_TX
                     {| Reference.inputs := [];
                        Reference.outputs :=
                          [{| Reference.out_value := 10; Reference.out_script := [] |}] |}
                     record _ _ _ _)
                  (VArr [VStr "push"]) _ _ _); reflexivity.
  - refine (proj1 (parseTX_value_check Reference.TX_version Reference.new_TX
                     Reference.TX_input Reference.TX_output Reference.compileTextArray
                     Reference.Buffer_from Reference.BN Reference.StringToNumber
                     [] [VObj [("value", VStr "10"); ("script", VArr [])]] []
                     (VObj [("value", VNum 5); ("script", VArr [VStr "push"])])
                     (VNum 5) Reference.new_TX
                     {| Reference.inputs := [];
                        Reference.outputs :=
                          [{| Reference.out_value := 10; Reference.out_script := [] |}] |}
                     record _ _ _ _) _); try reflexivity.
    discriminate.
Defined.

(** A value that is not a string, or is absent, is rejected by [parseTX];
    a string that is no number passes [parseTX]'s test and is refused by the
    big-number constructor of this instance. *)
Example parseTX_value_samples :
  Reference.parseTX
    (Reference.envelope [] [VObj [("value", VNum 5); ("script", VArr [])]])
  = Throw (AssertionError "Client: `tx.output[].value` must be a decimal string") /\
  Reference.parseTX (Reference.envelope [] [VObj [("script", VArr [])]])
  = Throw (AssertionError "Client: `tx.output[].value` must be a decimal string") /\
  Reference.parseTX
    (Reference.envelope [] [VObj [("value", VStr "abc"); ("script", VArr [])]])
  = Throw (AssertionError "BN: not a non-negative decimal string").
Proof. repeat split; reflexivity. Qed.

(** The other messages that name a field other than the one tested. *)
Example parseTX_outputs_not_array :
  Reference.parseTX (VObj [("version", VNum 1); ("inputs", VArr []); ("outputs", VStr "none")])
  = Throw (AssertionError "Client: `tx.inputs` must be an Array") /\
  Reference.parseTX (VObj [("version", VNum 1); ("inputs", VNum 0); ("outputs", VArr [])])
  = Throw (AssertionError "Client: `tx.inputs` must be an Array").
Proof. split; reflexivity. Qed.

(** Status 200 with body [{tx: '00'}] in two chunks: delivered once. *)
Lemma success_completes_witness :
  calls (observed Reference.JSON_parse Reference.client "GET" "/tx/00" []
                  (respond 200 ["{"; Reference.JSON_stringify (VStr "tx") ++ ":"
                                       ++ Reference.JSON_stringify (VStr "00") ++ "}"]))
  = [Delivered (VObj [("tx", VStr "00")])].
Proof.
  apply (success_completes Reference.JSON_parse Reference.client "GET" "/tx/00" []
           200 _ (VObj [("tx", VStr "00")]) VUndefined).
  - reflexivity.
  - reflexivity.
  - reflexivity.
  - lia.
Defined.

(* ===================================================================== *)
(** * Further properties                                                 *)
(* ===================================================================== *)

(** ** The request primitive: failures, chunking, what a completed request
    ignores *)

Section RequestEdges.

Variable JSON_parse : string -> result value.
Variable c : Client.
Variables (method path : string) (headers : list (string * value)).

(** X3.  A response whose status is outside [200, 400) and whose body decodes
    to data without a truthy [error] fails a fresh request with the
    status-code error, the callback being called once; the guard is left
    unset, the request still counting as not completed. *)
Theorem status_failure_completes (status : Z) (body : list string) (data error : value) :
  JSON_parse (body_text body) = Return data ->
  Get data "error" = Return error ->
  ToBoolean error = false ->
  status < 200 \/ 400 <= status ->
  calls (observed JSON_parse c method path headers (respond status body))
  = [Failed (Error ("Client: statusCode " ++ dec status))] /\
  once (observed JSON_parse c method path headers (respond status body)) = false.
Proof.
  intros Hparse Hget Hfalsy Hrange. unfold observed, run.
  rewrite run_respond by reflexivity.
  rewrite (status_failure_skips_guard JSON_parse _ status (body_text body) data error
             Hparse Hget Hfalsy Hrange).
  split; reflexivity.
Qed.

(** X4.  A response whose body decodes to [null] never completes the
    request: reading [data.error] throws inside the 'end' listener, the
    callback is not called, whatever the status. *)
Theorem null_body_is_uncaught (status : Z) (body : list string) :
  JSON_parse (body_text body) = Return VNull ->
  calls (observed JSON_parse c method path headers (respond status body)) = [] /\
  uncaught (observed JSON_parse c method path headers (respond status body)) = [TypeError].
Proof.
  intros Hparse. unfold observed, run.
  rewrite run_respond by reflexivity.
  unfold on_end. unfold Return in Hparse. rewrite Hparse. split; reflexivity.
Qed.

End RequestEdges.

Section RequestOrder.

Variable JSON_parse : string -> result value.
Context {R : Type}.
Variable callback : callback_t value R.

(** X5.  What a response does to a request is decided by its status and by
    the string the 'data' listener has accumulated, the chunks, each already
    converted to a string, appended in order: two responses with the same
    status whose chunk strings add up to the same string leave the request
    in the same state, for any callback. *)
Theorem same_text_same_outcome (status : Z) (body1 body2 : list string) :
  body_text body1 = body_text body2 ->
  run_from JSON_parse callback initial (respond status body1)
  = run_from JSON_parse callback initial (respond status body2).
Proof.
  intros Htext. rewrite !run_respond by reflexivity. now rewrite Htext.
Qed.

Lemma run_guarded (st : state R) (events : list event) :
  guarded st -> Forall status_in_range events ->
  guarded (run_from JSON_parse callback st events).
Proof.
  intros Hst Hev. revert st Hst.
  induction Hev as [|ev events Hev _ IH]; intros st Hst; simpl; [exact Hst|].
  apply IH. now apply step_guarded.
Qed.

(** With the guard set and statuses in range, one more event leaves the
    guard set and the calls as they are. *)
Lemma step_after_completion (st : state R) (ev : event) :
  once st = true -> guarded st -> status_in_range ev ->
  once (step JSON_parse callback st ev) = true /\
  calls (step JSON_parse callback st ev) = calls st.
Proof.
  intros Honce [_ Hres] Hev.
  destruct ev as [status|chunk| |e]; simpl.
  - destruct (res st); split; auto.
  - destruct (res st); split; auto.
  - destruct (res st) as [r|] eqn:Er; [|split; auto].
    destruct (end_listener r); [|split; auto].
    specialize (Hres r eq_refl).
    assert (Hstatus : (statusCode r <? 200)%Z || (statusCode r >=? 400)%Z = false)
      by (apply orb_false_iff; split; [apply Z.ltb_ge | rewrite Z.geb_leb; apply Z.leb_gt]; lia).
    unfold on_end, done. simpl. rewrite Honce, Hstatus.
    destruct (JSON_parse (chunks r)) as [e|data]; [split; auto|].
    destruct (Get data "error") as [e|error]; [split; auto|].
    destruct (ToBoolean error); split; auto.
  - destruct (error_listener st); unfold done; simpl; rewrite ?Honce; split; auto.
Qed.

Lemma run_after_completion (st : state R) (events : list event) :
  once st = true -> guarded st -> Forall status_in_range events ->
  calls (run_from JSON_parse callback st events) = calls st.
Proof.
  intros Honce Hst Hev. revert st Honce Hst.
  induction Hev as [|ev events Hev _ IH]; intros st Honce Hst; simpl; [reflexivity|].
  destruct (step_after_completion st ev Honce Hst Hev) as [Honce' Hcalls'].
  rewrite IH; [exact Hcalls' | exact Honce' | now apply step_guarded].
Qed.

(** X6.  The first completion wins: once the guard of a request is set,
    nothing that arrives later (further responses, data, ends or errors,
    with statuses in [200, 400)) makes the callback be called again. *)
Theorem first_completion_wins (before after : list event) :
  Forall status_in_range before ->
  Forall status_in_range after ->
  once (run_from JSON_parse callback initial before) = true ->
  calls (run_from JSON_parse callback initial (before ++ after))
  = calls (run_from JSON_parse callback initial before).
Proof.
  intros Hbefore Hafter Honce. unfold run_from. rewrite fold_left_app.
  apply run_after_completion; [exact Honce | | exact Hafter].
  apply run_guarded; [|exact Hbefore].
  split; simpl; [lia | discriminate].
Qed.

Lemma errors_without_listener (st : state R) (errors : list exn) :
  error_listener st = false ->
  run_from JSON_parse callback st (map EvError errors)
  = {| once := once st; error_listener := false; res := res st; calls := calls st;
       uncaught := (uncaught st ++ errors)%list |}.
Proof.
  revert st. induction errors as [|e errors IH]; intros st Hlistener.
  - simpl. rewrite app_nil_r. destruct st; simpl in *. now subst.
  - change (run_from JSON_parse callback st (map EvError (e :: errors)))
      with (run_from JSON_parse callback (step JSON_parse callback st (EvError e))
                     (map EvError errors)).
    assert (Hstep : step JSON_parse callback st (EvError e) = throw_uncaught st e)
      by (simpl; now rewrite Hlistener).
    rewrite Hstep, IH by exact Hlistener.
    unfold throw_uncaught. simpl. now rewrite <- app_assoc.
Qed.

End RequestOrder.

(** X7.  Of the transport errors a request emits, only the first reaches the
    callback: the listener is registered with [once], each later error finds
    no listener and is thrown by the emitter. *)
Theorem only_first_error_is_heard (JSON_parse : string -> result value) (c : Client)
        (method path : string) (headers : list (string * value))
        (e : exn) (later : list exn) :
  calls (observed JSON_parse c method path headers (map EvError (e :: later))) = [Failed e] /\
  uncaught (observed JSON_parse c method path headers (map EvError (e :: later))) = later.
Proof.
  unfold observed, run. simpl.
  change (fold_left (step JSON_parse record) (map EvError later) ?st)
    with (run_from JSON_parse record st (map EvError later)).
  rewrite errors_without_listener by reflexivity. split; reflexivity.
Qed.

(** ** The request options *)

Lemma lookup_assign (key key' : string) (x : value) (props : list (string * value)) :
  lookup key (assign key' x props)
  = if String.eqb key' key then Some x else lookup key props.
Proof.
  induction props as [|[k v] props IH]; simpl.
  - reflexivity.
  - destruct (String.eqb_spec k key') as [->|Hk]; simpl.
    + destruct (String.eqb key' key); reflexivity.
    + rewrite IH.
      destruct (String.eqb_spec k key) as [->|_]; [|reflexivity].
      destruct (String.eqb_spec key' key) as [->|_]; [contradiction|reflexivity].
Qed.

(** A key reads from the extended list as from the source where the source
    binds it, and as from the target otherwise. *)
Lemma lookup_extend (key : string) (target source : list (string * value)) :
  lookup key (_extend target source)
  = match lookup key source with
    | Some x => Some x
    | None => lookup key target
    end.
Proof.
  unfold _extend.
  rewrite <- (fold_left_rev_right (fun kv acc => assign (fst kv) (snd kv) acc)).
  rewrite rev_involutive.
  induction source as [|[k v] source IH]; simpl; [reflexivity|].
  rewrite lookup_assign, IH. destruct (String.eqb k key); reflexivity.
Qed.

(** X9.  The headers of a request: a header the caller passes is sent with
    the caller's value, also where it is [User-Agent] or [Content-Type];
    every other header is one of these two, with its fixed value. *)
Theorem caller_headers_override {R : Type} (c : Client) (method path : string)
        (headers : list (string * value)) (callback : callback_t value R) (key : string) :
  lookup key (o_headers (req_options (request c method headers path callback)))
  = match lookup key headers with
    | Some x => Some x
    | None =>
        if String.eqb key "User-Agent"
        then Some (VStr ("hackchain/client_v" ++ ToString (version c)))
        else if String.eqb key "Content-Type" then Some (VStr "application/json")
        else None
    end.
Proof.
  unfold request. cbn [req_options o_headers].
  rewrite lookup_extend. destruct (lookup key headers); [reflexivity|].
  cbn [lookup]. rewrite !(String.eqb_sym _ key). reflexivity.
Qed.

(** ** Entities *)

(** What comes out of the calls that returned came from one of the calls. *)
Lemma In_successes {A B : Type} (k : A -> result B) (l : list A) (b : B) :
  In b (successes (map k l)) -> exists a, In a l /\ k a = Return b.
Proof.
  induction l as [|a l IH]; simpl; [intros []|].
  destruct (k a) as [e|b'] eqn:Hk.
  - intros Hin. destruct (IH Hin) as (a' & Hin' & Hk'). exists a'. auto.
  - intros [->|Hin].
    + exists a. auto.
    + destruct (IH Hin) as (a' & Hin' & Hk'). exists a'. auto.
Qed.

Lemma from_hex_toString_hex (bytes : list byte) :
  Reference.from_hex (toString_hex bytes) = bytes.
Proof.
  induction bytes as [|b bytes IH]; [reflexivity|].
  transitivity (b :: Reference.from_hex (toString_hex bytes)); [|now rewrite IH].
  cbn [toString_hex]. generalize (toString_hex bytes). intros rest.
  destruct b; reflexivity.
Qed.

Section EntityFacts.

Variable JSON_parse : string -> result value.
Variable Buffer_from : value -> string -> result (list byte).
Context {E : Type}.
Variable cons_parse : list byte -> result E.

(** X10.  [getBlock] and [getTX] (the two instances of [getEntity]), on any
    sequence of transport events: when the request delivers data whose entity
    field decodes from hex to bytes that the entity decoder accepts, the
    caller receives the entity; when the decoder throws, the caller receives
    the decoder's exception as a failure; when the request fails, the caller
    receives that failure. *)
Theorem getEntity_decodes (resource fieldname : string) (c : Client) (hash : string)
        (events : list event) :
  (forall (data hex : value) (raw : list byte) (entity : E),
     completions JSON_parse events = [Delivered data] ->
     Get data fieldname = Return hex ->
     Buffer_from hex "hex" = Return raw ->
     cons_parse raw = Return entity ->
     calls (run JSON_parse
              (Api.getEntity Buffer_from cons_parse resource fieldname c hash record) events)
     = [Delivered entity]) /\
  (forall (data hex : value) (raw : list byte) (e : exn),
     completions JSON_parse events = [Delivered data] ->
     Get data fieldname = Return hex ->
     Buffer_from hex "hex" = Return raw ->
     cons_parse raw = Throw e ->
     calls (run JSON_parse
              (Api.getEntity Buffer_from cons_parse resource fieldname c hash record) events)
     = [Failed e]) /\
  (forall err : exn,
     completions JSON_parse events = [Failed err] ->
     calls (run JSON_parse
              (Api.getEntity Buffer_from cons_parse resource fieldname c hash record) events)
     = [Failed err]).
Proof.
  repeat split.
  - intros data hex raw entity Hdone Hget Hraw Hentity.
    unfold run. rewrite run_calls, Hdone. unfold Return in *.
    simpl. rewrite Hget. unfold Api.parseEntity. simpl. rewrite Hraw. simpl.
    rewrite Hentity. reflexivity.
  - intros data hex raw e Hdone Hget Hraw Hentity.
    unfold run. rewrite run_calls, Hdone. unfold Return, Throw in *.
    simpl. rewrite Hget. unfold Api.parseEntity. simpl. rewrite Hraw. simpl.
    rewrite Hentity. reflexivity.
  - intros err Hdone.
    unfold run. rewrite run_calls, Hdone. reflexivity.
Qed.

(** X11.  When [Buffer.from] throws on the entity field of the delivered
    data (as it does on [undefined], the field being absent), the exception
    leaves [parseEntity] before the decoder's [try]: the caller's callback is
    never called. *)
Theorem getEntity_never_completes (resource fieldname : string) (c : Client) (hash : string)
        (events : list event) (data hex : value) (e : exn) :
  completions JSON_parse events = [Delivered data] ->
  Get data fieldname = Return hex ->
  Buffer_from hex "hex" = Throw e ->
  calls (run JSON_parse
           (Api.getEntity Buffer_from cons_parse resource fieldname c hash record) events)
  = [].
Proof.
  intros Hdone Hget Hraw.
  unfold run. rewrite run_calls, Hdone. unfold Return, Throw in *.
  simpl. rewrite Hget. unfold Api.parseEntity. simpl. rewrite Hraw. reflexivity.
Qed.

End EntityFacts.

Section ReadBack.

Variable JSON_parse : string -> result value.
Variable JSON_stringify : value -> string.
Context {TX : Type}.
Variable TX_render : TX -> list byte.
Variable TX_hash : TX -> list byte.
Variable TX_parse : list byte -> result TX.

(** X12.  [getTX] reads back what [spendTX] submitted.  With a hex-decoding
    [Buffer.from] and a transaction decoder that inverts the rendering of
    [tx]: [getTX] on the hex of the hash of [tx] asks for the path [spendTX]
    posted [tx] to, and when the service answers with the [tx] field
    [spendTX] sent, the caller receives [tx]. *)
Theorem getTX_reads_back_spendTX (c : Client) (tx : TX) (nonce : value)
        (events : list event) (data : value) :
  TX_parse (TX_render tx) = Return tx ->
  completions JSON_parse events = [Delivered data] ->
  Get data "tx" = Return (VStr (toString_hex (TX_render tx))) ->
  o_path (req_options
            (Api.getTX Reference.Buffer_from TX_parse c (toString_hex (TX_hash tx)) record))
  = o_path (req_options (Api.spendTX JSON_stringify TX_render TX_hash c tx nonce record)) /\
  calls (run JSON_parse
           (Api.getTX Reference.Buffer_from TX_parse c (toString_hex (TX_hash tx)) record)
           events)
  = [Delivered tx].
Proof.
  intros Hcodec Hdone Hget. split; [reflexivity|].
  unfold run. rewrite run_calls, Hdone.
  cbn [map]. unfold Api.getTX, Api.getEntity, Api.get, end_, request. cbn [req_callback].
  rewrite Hget.
  unfold Api.parseEntity, bind, Return.
  change (Reference.Buffer_from (VStr (toString_hex (TX_render tx))) "hex")
    with (@inr exn _ (Reference.from_hex (toString_hex (TX_render tx)))).
  rewrite from_hex_toString_hex.
  unfold Return in Hcodec. rewrite Hcodec. reflexivity.
Qed.

End ReadBack.

(** ** What [getComplexity] and [getNonce] can deliver *)

Section DeliveredValues.

Variable JSON_parse : string -> result value.

(** X13.  Whatever the transport does, a complexity [getComplexity] delivers
    is truthy or is the number 0: a falsy value reported by the service (0,
    the empty string, [false], [null]) never reaches the caller as it is. *)
Theorem getComplexity_delivers_truthy_or_zero (c : Client) (events : list event)
        (complexity : value) :
  In (Delivered complexity) (calls (run JSON_parse (Api.getComplexity c record) events)) ->
  ToBoolean complexity = true \/ complexity = VNum 0.
Proof.
  unfold run. rewrite run_calls. intros Hin.
  apply In_successes in Hin. destruct Hin as ([err|info] & _ & Hk); simpl in Hk.
  - discriminate.
  - unfold bind, Return in Hk.
    destruct (Get info "proof-of-work-complexity") as [e|v]; [discriminate|].
    destruct (ToBoolean v) eqn:Hv; inversion Hk; subst; auto.
Qed.

Section Tokens.

Variable solve : value -> result (list byte).

(** X14.  Whatever the transport does, a token [getNonce] delivers is made of
    a complexity that is truthy or 0, a colon, and the hex of the nonce the
    solver returned for that very complexity; where the solver throws, no
    token is delivered. *)
Theorem getNonce_delivers_solved_tokens (c : Client) (events : list event) (token : string) :
  In (Delivered token) (calls (run JSON_parse (Api.getNonce solve c record) events)) ->
  exists (complexity : value) (nonce : list byte),
    solve complexity = Return nonce /\
    token = ToString complexity ++ ":" ++ toString_hex nonce /\
    (ToBoolean complexity = true \/ complexity = VNum 0).
Proof.
  unfold run. rewrite run_calls. intros Hin.
  apply In_successes in Hin. destruct Hin as ([err|info] & _ & Hk); simpl in Hk.
  - discriminate.
  - unfold bind, Return in Hk.
    destruct (Get info "proof-of-work-complexity") as [e|v]; [discriminate|].
    destruct (solve (if ToBoolean v then v else VNum 0)) as [e|nonce] eqn:Hsolve;
      [discriminate|].
    inversion Hk; subst.
    exists (if ToBoolean v then v else VNum 0), nonce.
    repeat split; [exact Hsolve|].
    destruct (ToBoolean v) eqn:Hv; auto.
Qed.

End Tokens.

End DeliveredValues.

(** ** The builder: what it accepts, and where it stops *)

(** The decimal rendering of a natural number starts with a digit. *)
Lemma dec_nat_head (i : nat) :
  exists (d : ascii) (rest : string),
    dec (Z.of_nat i) = String d rest /\ Reference.is_digit d = true.
Proof.
  unfold dec.
  assert (H : forall u : Decimal.uint,
             exists (d : ascii) (rest : string),
               NilZero.string_of_uint u = String d rest /\ Reference.is_digit d = true).
  { intros u. destruct u; simpl; eexists; eexists; split; reflexivity. }
  destruct (Z.of_nat i) as [|p|p] eqn:Hi; simpl.
  - eexists; eexists; split; reflexivity.
  - apply H.
  - lia.
Qed.

(** A key that does not start with a digit is no array index. *)
Lemma index_of_key_named (d : ascii) (rest : string) (n : nat) :
  Reference.is_digit d = false -> index_of_key (String d rest) n = None.
Proof.
  intros Hd. induction n as [|i IH]; simpl; [reflexivity|].
  destruct (dec_nat_head i) as (d' & rest' & Hdec & Hd'). rewrite Hdec.
  destruct (String.eqb_spec (String d' rest') (String d rest)) as [Heq|_]; [|exact IH].
  inversion Heq; subst. congruence.
Qed.

(** On a value that is not a plain object, a key that starts with a letter
    and is not [length] reads as [undefined], unless the value is [null] or
    [undefined], where the read throws. *)
Lemma Get_named_on_non_object (v : value) (d : ascii) (rest : string) :
  Reference.is_digit d = false ->
  String.eqb (String d rest) "length" = false ->
  match v with
  | VUndefined | VNull => Get v (String d rest) = Throw TypeError
  | VObj _ => True
  | _ => Get v (String d rest) = Return VUndefined
  end.
Proof.
  intros Hd Hlength.
  destruct v as [| |b|n|s|l|props]; try reflexivity; trivial; unfold Get;
    rewrite Hlength, (index_of_key_named d rest _ Hd); reflexivity.
Qed.

Section BuilderEdges.

Context {TX Script BNum : Type}.
Variable TX_version : Z.
Variable new_TX : TX.
Variable TX_input : TX -> list byte -> value -> Script -> result TX.
Variable TX_output : TX -> BNum -> Script -> result TX.
Variable compileTextArray : value -> result Script.
Variable Buffer_from : value -> string -> result (list byte).
Variable BN : value -> Z -> result BNum.
Variable StringToNumber : string -> option Z.
Context {R : Type}.

Local Abbreviation parseTX :=
  (Builder.parseTX TX_version new_TX TX_input TX_output compileTextArray Buffer_from BN
                   StringToNumber).
Local Abbreviation parse_input := (Builder.parse_input TX_input compileTextArray Buffer_from).
Local Abbreviation parse_output := (Builder.parse_output TX_output compileTextArray BN).
Local Abbreviation envelope := (Builder.envelope TX_version).

Lemma parse_input_checked (tx tx' : TX) (input : value) :
  parse_input tx input = Return tx' -> Builder.input_ok input = true.
Proof.
  unfold Builder.parse_input, Builder.input_ok, Builder.field, bind, assert, Return, Throw.
  destruct (ToBoolean input && String.eqb (typeof input) "object"); [|discriminate].
  destruct (Get input "hash") as [e|h]; [discriminate|].
  destruct (String.eqb (typeof h) "string"); [|discriminate].
  destruct (Get input "index") as [e|i]; [discriminate|].
  destruct (String.eqb (typeof i) "number"); [|discriminate].
  destruct (Get input "script") as [e|s]; [discriminate|].
  destruct (isArray s); [reflexivity|discriminate].
Qed.

Lemma parse_output_checked (tx tx' : TX) (output : value) :
  parse_output tx output = Return tx' -> Builder.output_ok output = true.
Proof.
  unfold Builder.parse_output, Builder.output_ok, Builder.field, bind, assert, Return, Throw.
  destruct (ToBoolean output && String.eqb (typeof output) "object"); [|discriminate].
  destruct (Get output "value") as [e|v]; [discriminate|].
  destruct (String.eqb (typeof v) "string"); [|discriminate].
  destruct (Get output "script") as [e|s]; [discriminate|].
  destruct (isArray s); [reflexivity|discriminate].
Qed.

Lemma each_checked {A : Type} (body : A -> value -> result A) (ok : value -> bool)
      (Hbody : forall acc acc' x, body acc x = Return acc' -> ok x = true)
      (l : list value) (acc acc' : A) :
  Builder.each body acc l = Return acc' -> forallb ok l = true.
Proof.
  revert acc. induction l as [|x l IH]; intros acc; simpl; [reflexivity|].
  unfold bind at 1. destruct (body acc x) as [e|acc1] eqn:Hx; [discriminate|].
  intros Hrest. rewrite (Hbody acc acc1 x Hx). simpl. exact (IH acc1 Hrest).
Qed.

(** X15.  What [parseTX] lets through.  Whenever [parseTX] returns rather
    than throws (the callback was reached and returned), the data had a
    version loosely equal to [TX.version], arrays under [inputs] and
    [outputs], every input record was an object with a string [hash], a
    number [index] and an array [script], and every output record an object
    with a string [value] and an array [script]. *)
Theorem parseTX_accepts_only_checked (data : value) (callback : callback_t TX R) (r : R) :
  parseTX data callback = Return r ->
  exists (version : value) (ins outs : list value),
    Get data "version" = Return version /\
    loose_eq_num StringToNumber version TX_version = true /\
    Get data "inputs" = Return (VArr ins) /\
    Get data "outputs" = Return (VArr outs) /\
    forallb Builder.input_ok ins = true /\
    forallb Builder.output_ok outs = true.
Proof.
  unfold Builder.parseTX. unfold bind at 1.
  destruct (Get data "version") as [e|version]; [discriminate|].
  unfold assert at 1, bind at 1.
  destruct (loose_eq_num StringToNumber version TX_version) eqn:Hversion; [|discriminate].
  unfold Return at 1, bind at 1.
  destruct (Get data "inputs") as [e|ins]; [discriminate|].
  unfold assert at 1, bind at 1.
  destruct ins as [| | | | |ins|]; try discriminate.
  unfold Return at 1, bind at 1.
  destruct (Get data "outputs") as [e|outs]; [discriminate|].
  unfold assert at 1, bind at 1.
  destruct outs as [| | | | |outs|]; try discriminate.
  unfold Return at 1. cbn [isArray Builder.elements]. unfold bind at 1.
  destruct (Builder.each parse_input new_TX ins) as [e|tx0] eqn:Hins; [discriminate|].
  unfold bind at 1.
  destruct (Builder.each parse_output tx0 outs) as [e|tx1] eqn:Houts; [discriminate|].
  intros _. exists version, ins, outs. repeat split; try assumption.
  - exact (each_checked _ _ parse_input_checked ins new_TX tx0 Hins).
  - exact (each_checked _ _ parse_output_checked outs tx0 tx1 Houts).
Qed.

(** X16.  [parseTX] stops at the first record that fails.  The error of the
    first failing input is the error of the build, whatever follows it and
    whatever the outputs are; with all inputs accepted, the error of the
    first failing output is the error of the build.  The callback is not
    called. *)
Theorem parseTX_stops_at_first_failure (callback : callback_t TX R) :
  (forall (before after outs : list value) (bad : value) (tx : TX) (e : exn),
     Builder.each parse_input new_TX before = Return tx ->
     parse_input tx bad = Throw e ->
     parseTX (envelope (before ++ bad :: after) outs) callback = Throw e) /\
  (forall (ins before after : list value) (bad : value) (tx0 tx : TX) (e : exn),
     Builder.each parse_input new_TX ins = Return tx0 ->
     Builder.each parse_output tx0 before = Return tx ->
     parse_output tx bad = Throw e ->
     parseTX (envelope ins (before ++ bad :: after)) callback = Throw e).
Proof.
  split.
  - intros before after outs bad tx e Hbefore Hbad.
    rewrite parseTX_loops, each_app, Hbefore. simpl. rewrite Hbad. reflexivity.
  - intros ins before after bad tx0 tx e Hins Hbefore Hbad.
    rewrite parseTX_loops, Hins. simpl. rewrite each_app, Hbefore. simpl.
    rewrite Hbad. reflexivity.
Qed.

(** X17.  Data that is not a plain object.  On [null] and [undefined] the
    read of [data.version] throws a [TypeError]; on a boolean, a number, a
    string or an array, [data.version] is [undefined] and the build is
    rejected with the version error. *)
Theorem parseTX_on_non_objects (data : value) (callback : callback_t TX R) :
  match data with
  | VUndefined | VNull => parseTX data callback = Throw TypeError
  | VObj _ => True
  | _ => parseTX data callback
         = Throw (AssertionError ("Client: version must be " ++ dec TX_version))
  end.
Proof.
  pose proof (Get_named_on_non_object data "v" "ersion" eq_refl eq_refl) as Hget.
  destruct data as [| |b|n|s|l|props]; trivial;
    unfold Builder.parseTX; rewrite Hget; reflexivity.
Qed.

(** X18.  Records that are not plain objects.  An input or output record
    that is [undefined], [null], a boolean, a number or a string is rejected
    as not being an object; an array passes that test ([typeof] says
    ['object']) and is rejected for its [hash], respectively its [value],
    which it does not have. *)
Theorem parseTX_records_must_be_objects (tx : TX) (entry : value) :
  match entry with
  | VObj _ => True
  | VArr _ =>
      parse_input tx entry
      = Throw (AssertionError "Client: `tx.inputs[].hash` must be a hex string") /\
      parse_output tx entry
      = Throw (AssertionError "Client: `tx.output[].value` must be a decimal string")
  | _ =>
      parse_input tx entry
      = Throw (AssertionError "Client: `tx.inputs[]` must contain Objects") /\
      parse_output tx entry
      = Throw (AssertionError "Client: `tx.outputs[]` must contain Objects")
  end.
Proof.
  pose proof (Get_named_on_non_object entry "h" "ash" eq_refl eq_refl) as Hhash.
  pose proof (Get_named_on_non_object entry "v" "alue" eq_refl eq_refl) as Hvalue.
  destruct entry as [| |b|n|s|l|props]; trivial;
    try (split; unfold Builder.parse_input, Builder.parse_output; simpl;
         try destruct b; try destruct (Z.eqb n 0); try destruct (String.eqb s "");
         reflexivity).
  split.
  - unfold Builder.parse_input. cbn [ToBoolean typeof andb String.eqb].
    change (assert _ _) with (@Return unit tt) at 1. unfold bind at 1, Return at 1.
    rewrite Hhash. reflexivity.
  - unfold Builder.parse_output. cbn [ToBoolean typeof andb String.eqb].
    change (assert _ _) with (@Return unit tt) at 1. unfold bind at 1, Return at 1.
    rewrite Hvalue. reflexivity.
Qed.

End BuilderEdges.

(** X19.  The request primitive offers each completion to its callback once,
    whatever the callback does with it: the calls that return are the
    callback's results on what a recording callback would have seen, in
    order, and a call that throws is not repeated. *)
Theorem request_calls_follow_completions (JSON_parse : string -> result value) {R : Type}
        (req : ClientRequest R) (events : list event) :
  calls (run JSON_parse req events)
  = successes (map (req_callback req) (completions JSON_parse events)).
Proof. unfold run. apply run_calls. Qed.

(** A callback that throws on the first completion is not called on the
    second one either way; here it never returns. *)
Example throwing_callback_is_not_retried :
  calls (run Reference.JSON_parse
             (request Reference.client "GET" [] "/"
                      (fun _ : completion value => @Throw unit (Error "in callback")))
             (respond 200 ["{}"] ++ [EvError (Error "socket hang up")])%list) = [] /\
  uncaught (run Reference.JSON_parse
                (request Reference.client "GET" [] "/"
                         (fun _ : completion value => @Throw unit (Error "in callback")))
                (respond 200 ["{}"] ++ [EvError (Error "socket hang up")])%list)
  = [Error "in callback"].
Proof. split; reflexivity. Qed.

(** *** Concrete runs of the properties above *)

(** Status 503 with body [{}]. *)
Lemma status_failure_completes_witness :
  calls (observed Reference.JSON_parse Reference.client "GET" "/" [] (respond 503 ["{}"]))
  = [Failed (Error "Client: statusCode 503")] /\
  once (observed Reference.JSON_parse Reference.client "GET" "/" [] (respond 503 ["{}"]))
  = false.
Proof.
  apply (status_failure_completes Reference.JSON_parse Reference.client "GET" "/" []
           503 ["{}"] (VObj []) VUndefined).
  - reflexivity.
  - reflexivity.
  - reflexivity.
  - right. lia.
Defined.

(** Status 200 with body [null], in two chunks. *)
Lemma null_body_is_uncaught_witness :
  calls (observed Reference.JSON_parse Reference.client "GET" "/" [] (respond 200 ["nu"; "ll"]))
  = [] /\
  uncaught (observed Reference.JSON_parse Reference.client "GET" "/" []
                     (respond 200 ["nu"; "ll"]))
  = [TypeError].
Proof.
  apply (null_body_is_uncaught Reference.JSON_parse Reference.client "GET" "/" []
           200 ["nu"; "ll"]).
  reflexivity.
Defined.

(** One chunk string or three, one of them empty. *)
Lemma same_text_same_outcome_witness :
  run_from Reference.JSON_parse record initial (respond 200 ["[1,2]"])
  = run_from Reference.JSON_parse record initial (respond 200 ["[1"; ""; ",2]"]).
Proof.
  apply (same_text_same_outcome Reference.JSON_parse record 200 ["[1,2]"] ["[1"; ""; ",2]"]).
  reflexivity.
Defined.

(** A transport error, then a late response and a second end. *)
Lemma first_completion_wins_witness :
  calls (run_from Reference.JSON_parse record initial
                  ([EvError (Error "socket hang up")] ++ respond 200 ["{}"] ++ [EvEnd])%list)
  = calls (run_from Reference.JSON_parse record initial [EvError (Error "socket hang up")]).
Proof.
  apply (first_completion_wins Reference.JSON_parse record
           [EvError (Error "socket hang up")] (respond 200 ["{}"] ++ [EvEnd])%list).
  - repeat constructor.
  - repeat constructor; simpl; lia.
  - reflexivity.
Defined.

(** An HTML error page under status 502. *)
Lemma decode_failure_completes_witness :
  calls (observed Reference.JSON_parse Reference.client "GET" "/" []
                  (respond 502 ["<html>"; "</html>"]))
  = [Failed (SyntaxError "Unexpected token in JSON")].
Proof.
  apply (decode_failure_completes Reference.JSON_parse Reference.client "GET" "/" []
           502 ["<html>"; "</html>"]).
  reflexivity.
Defined.

(** Entities as their own bytes: the decoder that returns what it is given,
    and the one that refuses everything. *)
Lemma getEntity_decodes_witness :
  calls (run Reference.JSON_parse
             (Api.getTX Reference.Buffer_from (fun raw : list byte => Return raw)
                        Reference.client "00" record)
             (respond 200 [Reference.JSON_stringify (VObj [("tx", VStr "0a0b")])]))
  = [Delivered [x0a; x0b]%byte] /\
  calls (run Reference.JSON_parse
             (Api.getBlock Reference.Buffer_from
                           (fun _ : list byte => @Throw (list byte) (Error "Block: truncated"))
                           Reference.client "00" record)
             (respond 200 [Reference.JSON_stringify (VObj [("block", VStr "0a0b")])]))
  = [Failed (Error "Block: truncated")] /\
  calls (run Reference.JSON_parse
             (Api.getTX Reference.Buffer_from (fun raw : list byte => Return raw)
                        Reference.client "00" record)
             (respond 404 [Reference.JSON_stringify (VObj [("error", VStr "not found")])]))
  = [Failed (Error "not found")].
Proof.
  split; [|split].
  - refine (proj1 (getEntity_decodes Reference.JSON_parse Reference.Buffer_from
                     (fun raw : list byte => Return raw) "/tx/" "tx" Reference.client "00" _)
                  (VObj [("tx", VStr "0a0b")]) (VStr "0a0b") [x0a; x0b]%byte
                  [x0a; x0b]%byte _ _ _ _); reflexivity.
  - refine (proj1 (proj2 (getEntity_decodes Reference.JSON_parse Reference.Buffer_from
                     (fun _ : list byte => @Throw (list byte) (Error "Block: truncated"))
                     "/block/" "block" Reference.client "00" _))
                  (VObj [("block", VStr "0a0b")]) (VStr "0a0b") [x0a; x0b]%byte
                  (Error "Block: truncated") _ _ _ _); reflexivity.
  - refine (proj2 (proj2 (getEntity_decodes Reference.JSON_parse Reference.Buffer_from
                     (fun raw : list byte => Return raw) "/tx/" "tx" Reference.client "00" _))
                  (Error "not found") _); reflexivity.
Defined.

(** A success body without the [tx] field. *)
Lemma getEntity_never_completes_witness :
  calls (run Reference.JSON_parse
             (Api.getTX Reference.Buffer_from (fun raw : list byte => Return raw)
                        Reference.client "00" record)
             (respond 200 ["{}"]))
  = [].
Proof.
  apply (getEntity_never_completes Reference.JSON_parse Reference.Buffer_from
           (fun raw : list byte => Return raw) "/tx/" "tx" Reference.client "00"
           (respond 200 ["{}"]) (VObj []) VUndefined TypeError).
  - reflexivity.
  - reflexivity.
  - reflexivity.
Defined.

(** Transactions as their own bytes, hashed to their first byte. *)
Lemma getTX_reads_back_spendTX_witness :
  o_path (req_options
            (Api.getTX Reference.Buffer_from (fun raw : list byte => Return raw)
                       Reference.client (toString_hex [x0a]%byte) record))
  = o_path (req_options
              (Api.spendTX Reference.JSON_stringify (fun tx : list byte => tx)
                           (firstn 1) Reference.client [x0a; x0b]%byte (VStr "4:002a") record)) /\
  calls (run Reference.JSON_parse
             (Api.getTX Reference.Buffer_from (fun raw : list byte => Return raw)
                        Reference.client (toString_hex [x0a]%byte) record)
             (respond 200 [Reference.JSON_stringify (VObj [("tx", VStr "0a0b")])]))
  = [Delivered [x0a; x0b]%byte].
Proof.
  apply (getTX_reads_back_spendTX Reference.JSON_parse Reference.JSON_stringify
           (fun tx : list byte => tx) (firstn 1) (fun raw : list byte => Return raw)
           Reference.client [x0a; x0b]%byte (VStr "4:002a")
           (respond 200 [Reference.JSON_stringify (VObj [("tx", VStr "0a0b")])])
           (VObj [("tx", VStr "0a0b")])).
  - reflexivity.
  - reflexivity.
  - reflexivity.
Defined.

(** The service reports the empty string: the caller receives 0. *)
Lemma getComplexity_delivers_truthy_or_zero_witness :
  ToBoolean (VNum 0) = true \/ VNum 0 = VNum 0.
Proof.
  apply (getComplexity_delivers_truthy_or_zero Reference.JSON_parse Reference.client
           (respond 200 [Reference.JSON_stringify
                           (VObj [("proof-of-work-complexity", VStr "")])])
           (VNum 0)).
  left. reflexivity.
Defined.

(** The service reports [null]: the token starts with 0. *)
Lemma getNonce_delivers_solved_tokens_witness :
  exists (complexity : value) (nonce : list byte),
    Reference.solve complexity = Return nonce /\
    "0:002a" = ToString complexity ++ ":" ++ toString_hex nonce /\
    (ToBoolean complexity = true \/ complexity = VNum 0).
Proof.
  apply (getNonce_delivers_solved_tokens Reference.JSON_parse Reference.solve Reference.client
           (respond 200 [Reference.JSON_stringify
                           (VObj [("proof-of-work-complexity", VNull)])])
           "0:002a").
  left. reflexivity.
Defined.

(** One input and one output, accepted. *)
Lemma parseTX_accepts_only_checked_witness :
  exists (version : value) (ins outs : list value),
    Get (Reference.envelope
           [VObj [("hash", VStr Reference.hash_hex); ("index", VNum 0); ("script", VArr [])]]
           [VObj [("value", VStr "25"); ("script", VArr [])]]) "version" = Return version /\
    loose_eq_num Reference.StringToNumber version Reference.TX_version = true /\
    Get (Reference.envelope
           [VObj [("hash", VStr Reference.hash_hex); ("index", VNum 0); ("script", VArr [])]]
           [VObj [("value", VStr "25"); ("script", VArr [])]]) "inputs" = Return (VArr ins) /\
    Get (Reference.envelope
           [VObj [("hash", VStr Reference.hash_hex); ("index", VNum 0); ("script", VArr [])]]
           [VObj [("value", VStr "25"); ("script", VArr [])]]) "outputs" = Return (VArr outs) /\
    forallb Builder.input_ok ins = true /\
    forallb Builder.output_ok outs = true.
Proof.
  apply (parseTX_accepts_only_checked Reference.TX_version Reference.new_TX Reference.TX_input
           Reference.TX_output Reference.compileTextArray Reference.Buffer_from Reference.BN
           Reference.StringToNumber _ record
           (Delivered
              {| Reference.inputs :=
                   [{| Reference.in_hash := Reference.hash_bytes; Reference.in_index := VNum 0;
                       Reference.in_script := [] |}];
                 Reference.outputs :=
                   [{| Reference.out_value := 25; Reference.out_script := [] |}] |})).
  reflexivity.
Defined.

(** A second input without a script, before an output without a value: the
    input's error; a second output whose script holds a number: the
    compiler's error. *)
Lemma parseTX_stops_at_first_failure_witness :
  Reference.parseTX
    (Reference.envelope
       [VObj [("hash", VStr Reference.hash_hex); ("index", VNum 0); ("script", VArr [])];
        VObj [("hash", VStr Reference.hash_hex); ("index", VNum 1)];
        VNull]
       [VObj [("script", VArr [])]])
  = Throw (AssertionError "Client: `tx.inputs[].script` must be an Array") /\
  Reference.parseTX
    (Reference.envelope
       []
       [VObj [("value", VStr "25"); ("script", VArr [])];
        VObj [("value", VStr "17"); ("script", VArr [VNum 7])];
        VNum 3])
  = Throw (Error "Script: unknown token").
Proof.
  split.
  - refine (proj1 (parseTX_stops_at_first_failure Reference.TX_version Reference.new_TX
                     Reference.TX_input Reference.TX_output Reference.compileTextArray
                     Reference.Buffer_from Reference.BN Reference.StringToNumber record)
                  [VObj [("hash", VStr Reference.hash_hex); ("index", VNum 0); ("script", VArr [])]]
                  [VNull] [VObj [("script", VArr [])]]
                  (VObj [("hash", VStr Reference.hash_hex); ("index", VNum 1)])
                  {| Reference.inputs :=
                       [{| Reference.in_hash := Reference.hash_bytes; Reference.in_index := VNum 0;
                           Reference.in_script := [] |}];
                     Reference.outputs := [] |}
                  _ _ _); reflexivity.
  - refine (proj2 (parseTX_stops_at_first_failure Reference.TX_version Reference.new_TX
                     Reference.TX_input Reference.TX_output Reference.compileTextArray
                     Reference.Buffer_from Reference.BN Reference.StringToNumber record)
                  [] [VObj [("value", VStr "25"); ("script", VArr [])]] [VNum 3]
                  (VObj [("value", VStr "17"); ("script", VArr [VNum 7])])
                  Reference.new_TX
                  {| Reference.inputs := [];
                     Reference.outputs :=
                       [{| Reference.out_value := 25; Reference.out_script := [] |}] |}
                  _ _ _ _); reflexivity.
Defined.

(** ** Output values against the collaborators the spec describes *)







(** What the instance refuses and accepts as a value. *)
Example decimal_value_samples :
  Reference.decimal_value (VStr "0") = true /\
  Reference.decimal_value (VStr "18446744073709551616") = true /\
  Reference.decimal_value (VStr "-5") = false /\
  Reference.decimal_value (VStr "1e3") = false /\
  Reference.decimal_value (VStr "") = false /\
  Reference.decimal_value (VNum 5) = false.
Proof. repeat split; reflexivity. Qed.
